(** * LLM-Proxy-Api: the request router, the resolver, the forwarding engine
      and the two operational stores, embedded from the JavaScript sources

    Two builds of the worker are embedded side by side:
    - [Durable]: [src/index.js] together with the Durable Object of
      [src/storage.js];
    - [Memory]: the single-file build that keeps its state in the
      module-level object [memoryStorage].

    Values read from the environment of a call (the clock, the random id,
    the answer of the upstream server, whether the Durable Object can be
    reached) are explicit arguments of the functions that read them. *)

From stdpp Require Import base strings list gmap.
From Stdlib Require Import Ascii ZArith Lia.

Set Warnings "-register-all".

(** ** JavaScript values *)

(** JSON values. Numbers are the integers: the status codes, durations and
    limits the program computes with are integers, and nothing below
    depends on a fractional value. *)
Inductive jsval : Type :=
  | JNull
  | JBool (b : bool)
  | JNum (n : Z)
  | JStr (s : string)
  | JArr (l : list jsval)
  | JObj (o : gmap string jsval).

(** A JavaScript object used as a record: property name to value. A
    property that is absent reads as [undefined], here [None]. *)
Abbreviation jsobj := (gmap string jsval).

(** [ToBoolean] on a JSON value. *)
Definition truthy (v : jsval) : bool :=
  match v with
  | JNull => false
  | JBool b => b
  | JNum n => negb (n =? 0)%Z
  | JStr s => negb (String.eqb s "")
  | JArr _ => true
  | JObj _ => true
  end.

(** [ToBoolean] on the result of a property read. *)
Definition truthy_prop (p : option jsval) : bool :=
  match p with
  | None => false
  | Some v => truthy v
  end.

(** [typeof v === 'string']. *)
Definition is_string (v : jsval) : bool :=
  match v with
  | JStr _ => true
  | _ => false
  end.

(** [{...a, ...b}]: the properties of [b] win. *)
Definition spread (a b : jsobj) : jsobj := b ∪ a.

(** An error object; only its [message] is ever read. *)
Record exn : Type := Exn { message : string }.

(** A computation that returns or throws. *)
Inductive result (A : Type) : Type :=
  | Ok (a : A)
  | Throw (e : exn).
Arguments Ok {A} a.
Arguments Throw {A} e.

#[export] Instance result_ret : MRet result := fun A a => Ok a.

#[export] Instance result_bind : MBind result := fun A B k c =>
  match c with
  | Ok a => k a
  | Throw e => Throw e
  end.

(** [try { c } catch (e) { h e }]. *)
Definition try_catch {A} (c : result A) (h : exn → result A) : result A :=
  match c with
  | Ok a => Ok a
  | Throw e => h e
  end.

(** ** Strings *)

Module Str.

(** [s.startsWith(p)]. *)
Fixpoint startsWith (s p : string) : bool :=
  match p, s with
  | EmptyString, _ => true
  | String _ _, EmptyString => false
  | String a p', String b s' => Ascii.eqb a b && startsWith s' p'
  end.

Fixpoint drop (n : nat) (s : string) : string :=
  match n, s with
  | O, _ => s
  | S n', String _ s' => drop n' s'
  | S _, EmptyString => EmptyString
  end.

(** [s.replace(pat, rep)] with a string pattern: the first occurrence
    only. [rep] holds no [$], as at every call site. *)
Fixpoint replace (pat rep s : string) : string :=
  if startsWith s pat then rep +:+ drop (String.length pat) s
  else match s with
       | EmptyString => EmptyString
       | String c s' => String c (replace pat rep s')
       end.

(** [s.replace(/\/$/, '')]: the pattern is anchored at the end of the
    input, so at most the last character goes. *)
Fixpoint stripTrailingSlash (s : string) : string :=
  match s with
  | EmptyString => EmptyString
  | String c EmptyString => if Ascii.eqb c "/"%char then EmptyString else s
  | String c s' => String c (stripTrailingSlash s')
  end.

Fixpoint endsWith_slash (s : string) : bool :=
  match s with
  | EmptyString => false
  | String c EmptyString => Ascii.eqb c "/"%char
  | String _ s' => endsWith_slash s'
  end.

(** *** [parseInt] with no radix argument *)

(** A string is the UTF-8 encoding of the JavaScript string. What
    [parseInt] skips at the start are the white space and line terminator
    code points: U+0009 to U+000D and U+0020 in one byte; U+00A0 in two
    bytes; U+1680, U+2000 to U+200A, U+2028, U+2029, U+202F, U+205F,
    U+3000 and U+FEFF in three. *)
Definition is_space (c : ascii) : bool :=
  let n := nat_of_ascii c in
  (n =? 32) || ((9 <=? n) && (n <=? 13)).

Definition is_space2 (c1 c2 : ascii) : bool :=
  (nat_of_ascii c1 =? 194) && (nat_of_ascii c2 =? 160).

Definition is_space3 (c1 c2 c3 : ascii) : bool :=
  let a := nat_of_ascii c1 in
  let b := nat_of_ascii c2 in
  let c := nat_of_ascii c3 in
  ((a =? 225) && (b =? 154) && (c =? 128))
  || ((a =? 226) && (b =? 128)
      && (((128 <=? c) && (c <=? 138)) || (c =? 168) || (c =? 169) || (c =? 175)))
  || ((a =? 226) && (b =? 129) && (c =? 159))
  || ((a =? 227) && (b =? 128) && (c =? 128))
  || ((a =? 239) && (b =? 187) && (c =? 191)).

Fixpoint trimStart (s : string) : string :=
  match s with
  | EmptyString => EmptyString
  | String c1 s1 =>
      if is_space c1 then trimStart s1
      else
        match s1 with
        | EmptyString => s
        | String c2 s2 =>
            if is_space2 c1 c2 then trimStart s2
            else
              match s2 with
              | EmptyString => s
              | String c3 s3 => if is_space3 c1 c2 c3 then trimStart s3 else s
              end
        end
  end.

(** The value of [c] as a digit of the given radix (10 or 16). *)
Definition digit (radix : Z) (c : ascii) : option Z :=
  let n := Z.of_nat (nat_of_ascii c) in
  let v := if (48 <=? n)%Z && (n <=? 57)%Z then Some (n - 48)%Z
           else if (97 <=? n)%Z && (n <=? 122)%Z then Some (n - 87)%Z
           else if (65 <=? n)%Z && (n <=? 90)%Z then Some (n - 55)%Z
           else None in
  match v with
  | Some d => if (d <? radix)%Z then Some d else None
  | None => None
  end.

(** The longest prefix of digits, read as a number; [acc] is [None]
    until the first digit. *)
Fixpoint digits (radix : Z) (acc : option Z) (s : string) : option Z :=
  match s with
  | EmptyString => acc
  | String c s' =>
      match digit radix c with
      | Some d => digits radix (Some (default 0%Z acc * radix + d)%Z) s'
      | None => acc
      end
  end.

(** [parseInt(s)]; [None] is [NaN]. The value is exact: where JavaScript
    rounds it to a double, beyond 2^53, it exceeds every array length, and
    [slice] gives the same result for the two. *)
Definition parseInt (s : string) : option Z :=
  let s := trimStart s in
  let '(sign, s) :=
    match s with
    | String "-"%char s' => ((-1)%Z, s')
    | String "+"%char s' => (1%Z, s')
    | _ => (1%Z, s)
    end in
  let '(radix, s) :=
    match s with
    | String "0"%char (String "x"%char s') => (16%Z, s')
    | String "0"%char (String "X"%char s') => (16%Z, s')
    | _ => (10%Z, s)
    end in
  match digits radix None s with
  | Some n => Some (sign * n)%Z
  | None => None
  end.

End Str.

(** ** Arrays *)

(** [a.slice(start)] with one argument. *)
Definition slice {A} (start : Z) (a : list A) : list A :=
  let len := Z.of_nat (length a) in
  let k := if (start <? 0)%Z then Z.max (len + start) 0 else Z.min start len in
  drop (Z.to_nat k) a.

(** The last [n] elements, all of them when there are fewer. *)
Definition lastn {A} (n : nat) (a : list A) : list A :=
  drop (length a - n) a.

(** The bounded insertion the three append sites share word for word:
    [logs.push(newLog); if (logs.length > 1000) logs.splice(0, logs.length - 1000)]. *)
Definition LOG_CAP : nat := 1000.

Definition pushLog {A} (newLog : A) (logs : list A) : list A :=
  let logs := logs ++ [newLog] in
  if LOG_CAP <? length logs then drop (length logs - LOG_CAP) logs else logs.

(** ** HTTP messages *)

(** A header collection: one value for each lower-cased name, as the
    [Headers] class keeps them. [h !! name] is [headers.get(name)]. *)
Abbreviation Headers := (gmap string string).

(** Statistics as [getStats] and [handleStats] report them. The two
    rounded ratios of the source are [Math.round] of floating-point
    quotients and are not represented. *)
Record Stats : Type := {
  totalRequests : Z;
  currentTarget : jsval;
  lastUpdated : jsval
}.

(** A message body before serialisation. *)
Inductive Body : Type :=
  | BNull
  | BText (s : string)
  | BJson (v : jsval)
  | BStats (s : Stats).

(** An inbound request, with its URL already split by [new URL]. [json]
    is what [request.json()] gives: the admin routes read objects, and a
    body that is not JSON makes the call throw. *)
Record Request : Type := {
  method : string;
  protocol : string;
  pathname : string;
  searchParams : list (string * string);
  headers : Headers;
  body : Body;
  json : result jsobj
}.

(** [url.searchParams.get(name)]. *)
Fixpoint searchParams_get (name : string) (ps : list (string * string)) : option string :=
  match ps with
  | [] => None
  | (k, v) :: ps' => if String.eqb k name then Some v else searchParams_get name ps'
  end.

(** [p] up to its first slash, and the rest from that slash on. *)
Fixpoint first_segment (p : string) : string * string :=
  match p with
  | EmptyString => (EmptyString, EmptyString)
  | String c p' =>
      if Ascii.eqb c "/"%char then (EmptyString, p)
      else let '(seg, rest) := first_segment p' in (String c seg, rest)
  end.

(** The single-dot and double-dot path segments of the URL parser, with
    their percent-encoded spellings. *)
Definition is_dot_segment (seg : string) : bool :=
  let dot s := String.eqb s "." || String.eqb s "%2e" || String.eqb s "%2E" in
  dot seg
  || String.eqb seg ".."
  || String.eqb seg ".%2e" || String.eqb seg ".%2E"
  || String.eqb seg "%2e." || String.eqb seg "%2E."
  || String.eqb seg "%2e%2e" || String.eqb seg "%2e%2E"
  || String.eqb seg "%2E%2e" || String.eqb seg "%2E%2E".

(** The assignment [url.pathname = p] on an http(s) URL, for a [p] cut
    out of a path the URL parser has already normalised and encoded, as
    [handleStorageRequest] assigns it: the stored path starts with a
    slash, and a first segment of [p] that is a dot segment, which only
    the cut can have produced, is dropped by the parser. *)
Definition setPathname (p : string) : string :=
  match p with
  | String "/"%char _ => p
  | _ =>
      let '(seg, rest) := first_segment p in
      if is_dot_segment seg then
        match rest with
        | EmptyString => "/"
        | _ => rest
        end
      else "/" +:+ p
  end.

Record Response : Type := {
  status : Z;
  statusText : string;
  rheaders : Headers;
  rbody : Body
}.

(** [response.ok]. *)
Definition ok (r : Response) : bool := (200 <=? status r)%Z && (status r <=? 299)%Z.

Definition json_headers : Headers := {[ "content-type" := "application/json" ]}.

(** [new Response(JSON.stringify(v), { status, headers: json })]. *)
Definition json_response (st : Z) (v : jsval) : Response :=
  {| status := st; statusText := ""; rheaders := json_headers; rbody := BJson v |}.

(** [new Response(text, { status })]: a text body gets the default
    content type. *)
Definition text_response (st : Z) (s : string) : Response :=
  {| status := st;
     statusText := "";
     rheaders := {[ "content-type" := "text/plain;charset=UTF-8" ]};
     rbody := BText s |}.

Definition error_body (msg : string) : jsval := JObj {[ "error" := JStr msg ]}.

(** [a || b] on optional strings: the first one that is present and not
    empty. *)
Definition or_str (a b : option string) : option string :=
  match a with
  | Some s => if String.eqb s "" then b else a
  | None => b
  end.

(** [v || null] on a property read. *)
Definition or_null (p : option jsval) : jsval :=
  match p with
  | Some v => if truthy v then v else JNull
  | None => JNull
  end.

(** ** The Durable Object of storage.js *)

Module Storage.

(** The two storage keys; [None] while a key was never written. *)
Record State : Type := {
  config : option jsobj;
  logs : option (list jsobj)
}.

Definition empty : State := {| config := None; logs := None |}.

(** [await this.state.storage.get('config') || {}]. *)
Definition stored_config (st : State) : jsobj := default ∅ (config st).

(** [await this.state.storage.get('logs') || []]. *)
Definition stored_logs (st : State) : list jsobj := default [] (logs st).

Definition handleOptions (request : Request) : Response :=
  let hs := headers request !! "access-control-request-headers" in
  {| status := 200;
     statusText := "";
     rheaders :=
       <[ "access-control-allow-origin" := "*" ]>
       (<[ "access-control-allow-methods" := "GET, POST, PUT, DELETE, OPTIONS" ]>
       (<[ "access-control-allow-headers" := default "*" (or_str hs None) ]> ∅));
     rbody := BNull |}.

Definition getConfig (st : State) : Response :=
  json_response 200 (JObj (stored_config st)).

(** [now] is [new Date().toISOString()] at the time of the call. *)
Definition setConfig (now : string) (data : jsobj) (st : State) : Response * State :=
  if truthy_prop (data !! "targetApiUrl")
     && negb (from_option is_string false (data !! "targetApiUrl"))
  then (json_response 400 (error_body "Invalid targetApiUrl"), st)
  else if truthy_prop (data !! "adminPassword")
     && negb (from_option is_string false (data !! "adminPassword"))
  then (json_response 400 (error_body "Invalid adminPassword"), st)
  else
    let existingConfig := stored_config st in
    let newConfig := <[ "updatedAt" := JStr now ]> (spread existingConfig data) in
    (json_response 200 (JObj newConfig),
     {| config := Some newConfig; logs := logs st |}).

Definition getLogs (limit : Z) (st : State) : Response :=
  json_response 200 (JArr (JObj <$> slice (- limit) (stored_logs st))).

(** The entry [addLog] builds from a submitted record: a generated id
    first, the submitted properties over it, the server's time last. *)
Definition newLog (now id : string) (logData : jsobj) : jsobj :=
  <[ "timestamp" := JStr now ]> (spread {[ "id" := JStr id ]} logData).

(** [id] is the value of [generateId()] at the time of the call. *)
Definition addLog (now id : string) (logData : jsobj) (st : State) : Response * State :=
  if negb (truthy_prop (logData !! "endpoint"))
     || negb (truthy_prop (logData !! "timestamp"))
  then (json_response 400 (error_body "Missing required fields"), st)
  else
    let entry := newLog now id logData in
    (json_response 200 (JObj entry),
     {| config := config st; logs := Some (pushLog entry (stored_logs st)) |}).

Definition clearLogs (st : State) : Response * State :=
  (json_response 200 (JObj {[ "message" := JStr "Logs cleared" ]}),
   {| config := config st; logs := Some [] |}).

Definition getStats (st : State) : Response :=
  let config := stored_config st in
  let logs := stored_logs st in
  {| status := 200;
     statusText := "";
     rheaders := json_headers;
     rbody := BStats {| totalRequests := Z.of_nat (length logs);
                        currentTarget := or_null (config !! "targetApiUrl");
                        lastUpdated := or_null (config !! "updatedAt") |} |}.

(** [parseInt(url.searchParams.get('limit')) || 50]: an absent
    parameter is [null], which [parseInt] reads as the text "null". *)
Definition limit_of (request : Request) : Z :=
  match Str.parseInt (default "null" (searchParams_get "limit" (searchParams request))) with
  | Some n => if (n =? 0)%Z then 50%Z else n
  | None => 50%Z
  end.

Definition handleConfig (now : string) (request : Request) (st : State)
  : result (Response * State) :=
  if String.eqb (method request) "GET" then Ok (getConfig st, st)
  else if String.eqb (method request) "POST" then
    data ← json request; Ok (setConfig now data st)
  else Ok (text_response 405 "Method not allowed", st).

Definition handleLogs (now id : string) (request : Request) (st : State)
  : result (Response * State) :=
  if String.eqb (method request) "GET" then Ok (getLogs (limit_of request) st, st)
  else if String.eqb (method request) "POST" then
    logData ← json request; Ok (addLog now id logData st)
  else if String.eqb (method request) "DELETE" then Ok (clearLogs st)
  else Ok (text_response 405 "Method not allowed", st).

Definition handleStats (request : Request) (st : State) : result (Response * State) :=
  if String.eqb (method request) "GET" then Ok (getStats st, st)
  else Ok (text_response 405 "Method not allowed", st).

(** The object's [fetch]. The handlers are returned without [await], so
    a rejection inside one of them passes the [catch] of [fetch] by and
    reaches the caller of the stub; nothing before the dispatch throws. *)
Definition fetch (now id : string) (request : Request) (st : State)
  : result (Response * State) :=
  if String.eqb (method request) "OPTIONS" then Ok (handleOptions request, st)
  else if Str.startsWith (pathname request) "/config" then handleConfig now request st
  else if Str.startsWith (pathname request) "/logs" then handleLogs now id request st
  else if Str.startsWith (pathname request) "/stats" then handleStats request st
  else Ok (text_response 404 "Not found", st).

(** *** Sequences of [addLog] calls *)

(** One call: the record submitted, with the time and the id the object
    reads while it serves the call. *)
Record Append : Type := {
  at_time : string;
  with_id : string;
  submitted : jsobj
}.

Fixpoint appendAll (calls : list Append) (st : State) : State :=
  match calls with
  | [] => st
  | c :: rest => appendAll rest (addLog (at_time c) (with_id c) (submitted c) st).2
  end.

(** The calls that pass the validation of [addLog]. *)
Definition accepted (c : Append) : bool :=
  truthy_prop (submitted c !! "endpoint") && truthy_prop (submitted c !! "timestamp").

(** The entries a sequence of calls creates, in the order of the calls. *)
Definition created (calls : list Append) : list jsobj :=
  (fun c => newLog (at_time c) (with_id c) (submitted c)) <$> filter accepted calls.

End Storage.

(** ** The worker's environment *)

(** The bindings of [env] the worker reads. *)
Record Env : Type := {
  ENVIRONMENT : option string;
  ADMIN_PASSWORD : option string;
  TARGET_API_URL : option string;
  TARGET_API_KEY : option string
}.

(** The request the worker sends upstream. *)
Record OutRequest : Type := {
  o_url : string;
  o_method : string;
  o_headers : Headers;
  o_body : Body
}.

(** What one invocation reads from outside the program. *)
Record World : Type := {
  (** [Date.now()] on entry of a handler and after the forward *)
  startTime : Z;
  endTime : Z;
  (** [new Date().toISOString()] in the worker *)
  isoTime : string;
  (** the clock and the generated id where a log entry is built *)
  appendTime : string;
  appendId : string;
  (** a stub call that is rejected before the object runs *)
  stubFailure : Request → option exn;
  (** [new Request(url, init)] rejecting its arguments *)
  requestError : OutRequest → option exn;
  (** the global [fetch] towards the upstream server *)
  upstream : OutRequest → result Response;
  (** the error [new Response] raises for a status it does not accept *)
  responseError : Z → exn;
  (** the probe [fetch(`${targetApiUrl}/v1/models`)] of test-connection *)
  probe : jsval → result Response;
  (** the document [getAdminHtml] ends up with *)
  adminHtml : string
}.

(** The calls that leave the worker. *)
Inductive Call : Type :=
  | StubCall (r : Request)
  | UpstreamCall (r : OutRequest)
  | ProbeCall (target : jsval).

(** The record a handler passes to [logRequest]. *)
Record LogData : Type := {
  endpoint : string;
  targetApi : string;
  log_status : Z;
  duration : Z;
  timestamp : string;
  error : option string
}.

Definition LogData_obj (d : LogData) : jsobj :=
  let o : jsobj :=
    <[ "endpoint" := JStr (endpoint d) ]>
    (<[ "targetApi" := JStr (targetApi d) ]>
    (<[ "status" := JNum (log_status d) ]>
    (<[ "duration" := JNum (duration d) ]>
    (<[ "timestamp" := JStr (timestamp d) ]> ∅)))) in
  match error d with
  | Some m => <[ "error" := JStr m ]> o
  | None => o
  end.

(** [new Response(body, { status, statusText, headers })]: the
    constructor refuses a status outside 200..599 and a body on a
    null-body status. *)
Definition new_Response (w : World) (r : Response) : result Response :=
  if (status r <? 200)%Z || (599 <? status r)%Z then Throw (responseError w (status r))
  else if ((status r =? 204)%Z || (status r =? 205)%Z || (status r =? 304)%Z)
          && negb (match rbody r with BNull => true | _ => false end)
  then Throw (responseError w (status r))
  else Ok r.

(** ** Stateful computations

    A computation of the worker runs on a system state [S], returns or
    throws, and leaves the state it reached in either case. *)

Definition M (S A : Type) : Type := S → result A * S.

#[export] Instance M_ret {S} : MRet (M S) := fun A a s => (Ok a, s).

#[export] Instance M_bind {S} : MBind (M S) := fun A B k c s =>
  match c s with
  | (Ok a, s') => k a s'
  | (Throw e, s') => (Throw e, s')
  end.

Definition throw {S A} (e : exn) : M S A := fun s => (Throw e, s).

Definition lift {S A} (r : result A) : M S A := fun s => (r, s).

(** [try { c } catch (e) { h e }]. *)
Definition tryM {S A} (c : M S A) (h : exn → M S A) : M S A := fun s =>
  match c s with
  | (Ok a, s') => (Ok a, s')
  | (Throw e, s') => h e s'
  end.

(** The three endpoint handlers differ in their path only. *)
Definition CHAT : string := "/v1/chat/completions".
Definition COMPLETIONS : string := "/v1/completions".
Definition EMBEDDINGS : string := "/v1/embeddings".

Definition DEFAULT_TARGET : string := "https://api.openai.com".

(** The header edits of [forwardRequest]. *)
Definition forward_headers (env : Env) (request : Request) : Headers :=
  let hs := headers request in
  let customApiKey := headers request !! "x-target-api-key" in
  let targetApiKey := or_str customApiKey (TARGET_API_KEY env) in
  let hs := match or_str targetApiKey None with
            | Some k => <[ "authorization" := "Bearer " +:+ k ]> hs
            | None => hs
            end in
  let hs := delete "host" hs in
  let hs := delete "content-length" hs in
  let hs := delete "x-target-api-url" hs in
  let hs := delete "x-target-api-key" hs in
  <[ "user-agent" := "LLM-Proxy-API/1.0" ]> hs.

(** The response [forwardRequest] builds in its [catch]. *)
Definition forward_failure (e : exn) : Response :=
  json_response 502
    (JObj (<[ "error" := JStr "Failed to forward request" ]>
           (<[ "message" := JStr (message e) ]> ∅))).

(** The response of the router's [catch]. *)
Definition internal_error (e : exn) : Response :=
  json_response 500
    (JObj (<[ "error" := JStr "Internal server error" ]>
           (<[ "message" := JStr (message e) ]> ∅))).

Definition unauthorized : Response := json_response 401 (error_body "Unauthorized").

Definition handleOptions (request : Request) : Response :=
  let hs := headers request !! "access-control-request-headers" in
  {| status := 200;
     statusText := "";
     rheaders :=
       <[ "access-control-allow-origin" := "*" ]>
       (<[ "access-control-allow-methods" := "GET, POST, PUT, DELETE, OPTIONS" ]>
       (<[ "access-control-allow-headers" := default "*" (or_str hs None) ]>
       (<[ "access-control-max-age" := "86400" ]> ∅)));
     rbody := BNull |}.

Definition admin_document (w : World) : Response :=
  {| status := 200;
     statusText := "";
     rheaders :=
       <[ "content-type" := "text/html; charset=utf-8" ]>
       (<[ "x-content-type-options" := "nosniff" ]>
       (<[ "x-frame-options" := "DENY" ]>
       (<[ "content-security-policy" :=
            "default-src 'self'; script-src 'self' 'unsafe-inline'; style-src 'self' 'unsafe-inline';" ]> ∅)));
     rbody := BText (adminHtml w) |}.

(** The classification of [handleTestConnection]. *)
Definition connection_ok (st : Z) : bool :=
  (st =? 401)%Z || (st =? 403)%Z || (st =? 404)%Z || (200 <=? st)%Z.

Definition connection_failed (e : exn) : Response :=
  json_response 502
    (JObj (<[ "error" := JStr "Connection failed" ]>
           (<[ "message" := JStr (message e) ]> ∅))).

(** The error of [request.json()] and [response.json()] on a body that is
    not JSON. *)
Definition SyntaxError : exn := Exn "Unexpected end of JSON input".

(** The error of a property read or a method call on a value that does
    not have it. *)
Definition TypeError : exn := Exn "Cannot read properties".

(** [response.json()]. *)
Definition response_json (r : Response) : result jsval :=
  match rbody r with
  | BJson v => Ok v
  | _ => Throw SyntaxError
  end.

(** The [config.targetApiUrl] test and [.replace(/\/$/, '')] of the
    resolver: [Ok None] when the property is falsy, a throw when it is
    truthy and has no [replace]. *)
Definition config_target (config : jsobj) : result (option string) :=
  match config !! "targetApiUrl" with
  | Some (JStr u) => if String.eqb u "" then Ok None else Ok (Some (Str.stripTrailingSlash u))
  | Some v => if truthy v then Throw TypeError else Ok None
  | None => Ok None
  end.

(** [(env.TARGET_API_URL || 'https://api.openai.com').replace(/\/$/, '')]. *)
Definition env_target (env : Env) : string :=
  Str.stripTrailingSlash (default DEFAULT_TARGET (or_str (TARGET_API_URL env) None)).

(** [env.ENVIRONMENT === 'production'] with a URL that is not https. *)
Definition https_rejected (env : Env) (request : Request) : bool :=
  match ENVIRONMENT env with
  | Some e => String.eqb e "production" && negb (String.eqb (protocol request) "https:")
  | None => false
  end.

Definition with_pathname (request : Request) (p : string) : Request :=
  {| method := method request;
     protocol := protocol request;
     pathname := setPathname p;
     searchParams := searchParams request;
     headers := headers request;
     body := body request;
     json := json request |}.

Definition health : Response :=
  json_response 200
    (JObj (<[ "status" := JStr "OK" ]>
           (<[ "message" := JStr "LLM Proxy API is running" ]> ∅))).

(** ** What the two builds share

    The system around one invocation: the state of the store ([St] is the
    object's storage in one build, [memoryStorage] in the other) and the
    calls issued so far. *)

Record Sys (St : Type) : Type := {
  store : St;
  calls : list Call
}.
Arguments store {St} s.
Arguments calls {St} s.

Definition emit {St} (c : Call) : M (Sys St) unit := fun s =>
  (Ok tt, {| store := store s; calls := calls s ++ [c] |}).

Section Shared.

Context {St : Type}.
Variable env : Env.
Variable w : World.

Definition serveAdminInterface (request : Request) : M (Sys St) Response :=
  mret (admin_document w).

Definition handleTestConnection (request : Request) : M (Sys St) Response :=
  tryM
    (data ← lift (json request);
     match data !! "targetApiUrl" with
     | Some targetApiUrl =>
         if truthy targetApiUrl then
           emit (ProbeCall targetApiUrl);;
           response ← lift (probe w targetApiUrl);
           if connection_ok (status response) then
             mret (json_response 200
                     (JObj (<[ "message" := JStr "Connection successful" ]>
                            (<[ "status" := JNum (status response) ]> ∅))))
           else
             mret (json_response 502
                     (JObj (<[ "error" := JStr "Connection failed" ]>
                            (<[ "status" := JNum (status response) ]>
                            (<[ "statusText" := JStr (statusText response) ]> ∅)))))
         else mret (json_response 400 (error_body "Missing targetApiUrl"))
     | None => mret (json_response 400 (error_body "Missing targetApiUrl"))
     end)
    (fun e => mret (connection_failed e)).

Definition outbound (request : Request) (targetUrl : string) : OutRequest :=
  {| o_url := targetUrl;
     o_method := method request;
     o_headers := forward_headers env request;
     o_body := body request |}.

(** The two headers set on every relayed response. *)
Definition relay (r : Response) : Response :=
  {| status := status r;
     statusText := statusText r;
     rheaders := <[ "x-content-type-options" := "nosniff" ]>
                 (<[ "access-control-allow-origin" := "*" ]> (rheaders r));
     rbody := rbody r |}.

(** The [try] block of [forwardRequest]; the block that reads the body
    of an upstream error only writes to the console. *)
Definition forward_attempt (request : Request) (targetUrl : string) : M (Sys St) Response :=
  let targetRequest := outbound request targetUrl in
  lift (match requestError w targetRequest with
        | Some e => Throw e
        | None => Ok tt
        end);;
  emit (UpstreamCall targetRequest);;
  response ← lift (upstream w targetRequest);
  modifiedResponse ← lift (new_Response w response);
  mret (relay modifiedResponse).

Definition forwardRequest (request : Request) (targetUrl : string) : M (Sys St) Response :=
  tryM (forward_attempt request targetUrl) (fun e => mret (forward_failure e)).

(** The body the three endpoint handlers have in both builds, over the
    resolver, the forwarding step and the logger it calls. *)
Definition handleWith
    (getTargetApiUrl : Request → M (Sys St) string)
    (forward : Request → string → M (Sys St) Response)
    (logRequest : LogData → M (Sys St) unit)
    (name : string) (request : Request) : M (Sys St) Response :=
  tryM
    (targetApiUrl ← getTargetApiUrl request;
     let targetUrl := targetApiUrl +:+ name in
     response ← forward request targetUrl;
     let duration := (endTime w - startTime w)%Z in
     logRequest {| endpoint := name;
                   targetApi := targetApiUrl;
                   log_status := status response;
                   duration := duration;
                   timestamp := isoTime w;
                   error := None |};;
     mret response)
    (fun e =>
       let duration := (endTime w - startTime w)%Z in
       targetApi ← getTargetApiUrl request;
       logRequest {| endpoint := name;
                     targetApi := targetApi;
                     log_status := 500;
                     duration := duration;
                     timestamp := isoTime w;
                     error := Some (message e) |};;
       throw e).

(** The tail of the router, after the admin routes, the same in both
    builds. *)
Definition route_public
    (handleChatCompletion handleCompletions handleEmbeddings : Request → M (Sys St) Response)
    (request : Request) : M (Sys St) Response :=
  let pathname := pathname request in
  if String.eqb (method request) "OPTIONS" then mret (handleOptions request)
  else if negb (String.eqb (method request) "POST")
          && negb (String.eqb (method request) "GET")
  then mret (json_response 405 (error_body "Method not allowed"))
  else if String.eqb (method request) "GET" then
    if String.eqb pathname "/" || String.eqb pathname "/health" then mret health
    else mret (json_response 404 (error_body "Not found"))
  else if String.eqb pathname CHAT then handleChatCompletion request
  else if String.eqb pathname COMPLETIONS then handleCompletions request
  else if String.eqb pathname EMBEDDINGS then handleEmbeddings request
  else mret (json_response 404 (error_body "Endpoint not found")).

End Shared.

(** ** The worker of src/index.js, on the Durable Object *)

Module Durable.

Abbreviation Sys := (Sys Storage.State).

Section Worker.

Variable env : Env.
Variable w : World.

(** The object behind the stub runs [Storage.fetch] on the request
    as it was sent. *)
Definition object_run (r : Request) : M Sys Response := fun s =>
  match stubFailure w r with
  | Some e => (Throw e, s)
  | None =>
      match Storage.fetch (appendTime w) (appendId w) r (store s) with
      | Ok (resp, st') => (Ok resp, {| store := st'; calls := calls s |})
      | Throw e => (Throw e, s)
      end
  end.

(** [env.LLM_PROXY_STORAGE.get(id).fetch(r)]. *)
Definition stub_fetch (r : Request) : M Sys Response :=
  emit (StubCall r);; object_run r.

Definition handleStorageRequest (request : Request) : M Sys Response :=
  stub_fetch (with_pathname request (Str.replace "/api/storage" "" (pathname request))).

Definition verifyAdminAuth (request : Request) : bool :=
  match headers request !! "authorization" with
  | None => false
  | Some authHeader =>
      if String.eqb authHeader "" then false
      else
        let token := Str.replace "Bearer " "" authHeader in
        if String.eqb token "" then false
        else bool_decide (Some token = ADMIN_PASSWORD env) || String.eqb token "admin-token"
  end.

Definition handleAdminApi (request : Request) : M Sys Response :=
  let pathname := Str.replace "/admin" "" (pathname request) in
  if String.eqb pathname "/test-connection" && String.eqb (method request) "POST"
  then handleTestConnection w request
  else stub_fetch (with_pathname request ("/api/storage" +:+ pathname)).

(** [stub.fetch('http://llm-proxy-storage/api/storage/config')]. *)
Definition config_request : Request :=
  {| method := "GET";
     protocol := "http:";
     pathname := "/api/storage/config";
     searchParams := [];
     headers := ∅;
     body := BNull;
     json := Throw SyntaxError |}.

(** The [try] block of the resolver: [Some u] when it returns [u],
    [None] when control leaves it at its end. *)
Definition stored_target : M Sys (option string) :=
  configResponse ← stub_fetch config_request;
  if ok configResponse then
    config ← lift (response_json configResponse);
    match config with
    | JObj o => lift (config_target o)
    | JNull => throw TypeError
    | _ => mret None
    end
  else mret None.

Definition getTargetApiUrl (request : Request) : M Sys string :=
  match or_str (headers request !! "x-target-api-url") None with
  | Some targetApiUrlHeader => mret (Str.stripTrailingSlash targetApiUrlHeader)
  | None =>
      stored ← tryM stored_target (fun _ => mret None);
      match stored with
      | Some u => mret u
      | None => mret (env_target env)
      end
  end.

(** The request [logRequest] sends to the object. *)
Definition log_request (logData : LogData) : Request :=
  {| method := "POST";
     protocol := "http:";
     pathname := "/api/storage/logs";
     searchParams := [];
     headers := json_headers;
     body := BJson (JObj (LogData_obj logData));
     json := Ok (LogData_obj logData) |}.

Definition logRequest (logData : LogData) : M Sys unit :=
  tryM (stub_fetch (log_request logData);; mret tt) (fun _ => mret tt).

Definition handleChatCompletion : Request → M Sys Response :=
  handleWith w getTargetApiUrl (forwardRequest env w) logRequest CHAT.
Definition handleCompletions : Request → M Sys Response :=
  handleWith w getTargetApiUrl (forwardRequest env w) logRequest COMPLETIONS.
Definition handleEmbeddings : Request → M Sys Response :=
  handleWith w getTargetApiUrl (forwardRequest env w) logRequest EMBEDDINGS.

Definition fetch (request : Request) : M Sys Response :=
  tryM
    (if https_rejected env request then mret (text_response 403 "Please use HTTPS")
     else
       let pathname := pathname request in
       if Str.startsWith pathname "/api/storage" then handleStorageRequest request
       else if String.eqb pathname "/admin" || String.eqb pathname "/admin/"
       then serveAdminInterface w request
       else if Str.startsWith pathname "/admin/" then
         if negb (verifyAdminAuth request) then mret unauthorized
         else handleAdminApi request
       else route_public handleChatCompletion handleCompletions handleEmbeddings request)
    (fun e => mret (internal_error e)).

End Worker.

End Durable.

(** ** The single-file worker, on [memoryStorage] *)

Module Memory.

Record Counters : Type := {
  c_totalRequests : Z;
  c_successfulRequests : Z;
  c_totalDuration : Z
}.

(** The module-level object [memoryStorage]. *)
Record Storage : Type := {
  config : jsobj;
  logs : list jsobj;
  stats : Counters
}.

(** Its value when the module is loaded. *)
Definition memoryStorage : Storage :=
  {| config := ∅;
     logs := [];
     stats := {| c_totalRequests := 0; c_successfulRequests := 0; c_totalDuration := 0 |} |}.

Abbreviation Sys := (Sys Storage).

Definition get : M Sys Storage := fun s => (Ok (store s), s).

Definition put (m : Storage) : M Sys unit := fun s =>
  (Ok tt, {| store := m; calls := calls s |}).

Section Worker.

Variable env : Env.
Variable w : World.

Definition invalid_json : Response := json_response 400 (error_body "Invalid JSON").

Definition handleConfig (request : Request) : M Sys Response :=
  if String.eqb (method request) "GET" then
    m ← get; mret (json_response 200 (JObj (config m)))
  else if String.eqb (method request) "POST" then
    tryM
      (data ← lift (json request);
       if truthy_prop (data !! "targetApiUrl")
          && negb (from_option is_string false (data !! "targetApiUrl"))
       then mret (json_response 400 (error_body "Invalid targetApiUrl"))
       else if truthy_prop (data !! "adminPassword")
          && negb (from_option is_string false (data !! "adminPassword"))
       then mret (json_response 400 (error_body "Invalid adminPassword"))
       else
         m ← get;
         let newConfig := <[ "updatedAt" := JStr (isoTime w) ]> (spread (config m) data) in
         put {| config := newConfig; logs := logs m; stats := stats m |};;
         mret (json_response 200 (JObj newConfig)))
      (fun _ => mret invalid_json)
  else mret (text_response 405 "Method not allowed").

Definition handleLogs (request : Request) : M Sys Response :=
  if String.eqb (method request) "GET" then
    m ← get;
    mret (json_response 200
            (JArr (JObj <$> slice (- Storage.limit_of request) (logs m))))
  else if String.eqb (method request) "POST" then
    tryM
      (logData ← lift (json request);
       if negb (truthy_prop (logData !! "endpoint"))
          || negb (truthy_prop (logData !! "timestamp"))
       then mret (json_response 400 (error_body "Missing required fields"))
       else
         let newLog := Storage.newLog (appendTime w) (appendId w) logData in
         m ← get;
         put {| config := config m; logs := pushLog newLog (logs m); stats := stats m |};;
         mret (json_response 200 (JObj newLog)))
      (fun _ => mret invalid_json)
  else if String.eqb (method request) "DELETE" then
    m ← get;
    put {| config := config m; logs := []; stats := stats m |};;
    mret (json_response 200 (JObj {[ "message" := JStr "Logs cleared" ]}))
  else mret (text_response 405 "Method not allowed").

Definition handleStats (request : Request) : M Sys Response :=
  if String.eqb (method request) "GET" then
    m ← get;
    mret {| status := 200;
            statusText := "";
            rheaders := json_headers;
            rbody := BStats {| totalRequests := c_totalRequests (stats m);
                               currentTarget := or_null (config m !! "targetApiUrl");
                               lastUpdated := or_null (config m !! "updatedAt") |} |}
  else mret (text_response 405 "Method not allowed").

Definition handleAdminApi (request : Request) : M Sys Response :=
  let pathname := Str.replace "/admin" "" (pathname request) in
  if String.eqb pathname "/test-connection" && String.eqb (method request) "POST"
  then handleTestConnection w request
  else if String.eqb pathname "/config" then handleConfig request
  else if Str.startsWith pathname "/logs" then handleLogs request
  else if String.eqb pathname "/stats" then handleStats request
  else mret (json_response 404 (error_body "Endpoint not found")).

Definition verifyAdminAuth (request : Request) : bool := true.

Definition getTargetApiUrl (request : Request) : M Sys string :=
  match or_str (headers request !! "x-target-api-url") None with
  | Some targetApiUrlHeader => mret (Str.stripTrailingSlash targetApiUrlHeader)
  | None =>
      m ← get;
      stored ← lift (config_target (config m));
      match stored with
      | Some u => mret u
      | None => mret (env_target env)
      end
  end.

Definition logRequest (logData : LogData) : M Sys unit :=
  tryM
    (let newLog := Storage.newLog (appendTime w) (appendId w) (LogData_obj logData) in
     m ← get;
     let c := stats m in
     put {| config := config m;
            logs := pushLog newLog (logs m);
            stats :=
              {| c_totalRequests := c_totalRequests c + 1;
                 c_successfulRequests :=
                   if (200 <=? log_status logData)%Z && (log_status logData <? 300)%Z
                   then c_successfulRequests c + 1 else c_successfulRequests c;
                 c_totalDuration := c_totalDuration c + duration logData |} |})
    (fun _ => mret tt).

Definition handleChatCompletion : Request → M Sys Response :=
  handleWith w getTargetApiUrl (forwardRequest env w) logRequest CHAT.
Definition handleCompletions : Request → M Sys Response :=
  handleWith w getTargetApiUrl (forwardRequest env w) logRequest COMPLETIONS.
Definition handleEmbeddings : Request → M Sys Response :=
  handleWith w getTargetApiUrl (forwardRequest env w) logRequest EMBEDDINGS.

Definition fetch (request : Request) : M Sys Response :=
  tryM
    (if https_rejected env request then mret (text_response 403 "Please use HTTPS")
     else
       let pathname := pathname request in
       if String.eqb pathname "/admin" || String.eqb pathname "/admin/"
       then serveAdminInterface w request
       else if Str.startsWith pathname "/admin/" then
         if negb (verifyAdminAuth request) then mret unauthorized
         else handleAdminApi request
       else route_public handleChatCompletion handleCompletions handleEmbeddings request)
    (fun e => mret (internal_error e)).

End Worker.

(** *** Sequences of [logRequest] calls *)

Fixpoint logAll (calls : list (World * LogData)) (s : Sys) : Sys :=
  match calls with
  | [] => s
  | (w, d) :: rest => logAll rest (logRequest w d s).2
  end.

(** The entries a sequence of calls creates, in the order of the calls. *)
Definition logged (calls : list (World * LogData)) : list jsobj :=
  (fun c => Storage.newLog (appendTime c.1) (appendId c.1) (LogData_obj c.2)) <$> calls.

End Memory.

(** ** Requests and readings used in the statements *)

(** A request over https, with the body [data] when it has one. *)
Definition https_request (m path : string) (params : list (string * string))
    (hs : Headers) (data : result jsobj) : Request :=
  {| method := m;
     protocol := "https:";
     pathname := path;
     searchParams := params;
     headers := hs;
     body := match data with Ok o => BJson (JObj o) | Throw _ => BNull end;
     json := data |}.

(** What [setConfig] tests of a submitted field. *)
Definition field_rejected (data : jsobj) (k : string) : bool :=
  truthy_prop (data !! k) && negb (from_option is_string false (data !! k)).

(** The total a statistics response reports. *)
Definition reported_total (r : result Response) : option Z :=
  match r with
  | Ok {| rbody := BStats s |} => Some (totalRequests s)
  | _ => None
  end.

(** The resolution the resolver of the Durable build computes: the header
    when it carries a value, the environment's default otherwise. *)
Definition header_or_env (env : Env) (request : Request) : string :=
  match or_str (headers request !! "x-target-api-url") None with
  | Some h => Str.stripTrailingSlash h
  | None => env_target env
  end.

(** The stub calls that submit a log record. *)
Definition is_log_call (c : Call) : bool :=
  match c with
  | StubCall r => String.eqb (method r) "POST" && String.eqb (pathname r) "/api/storage/logs"
  | _ => false
  end.

Module Sample.

Definition request (m path : string) (hs : Headers) (data : result jsobj) : Request :=
  https_request m path [] hs data.

Definition get (path : string) : Request := request "GET" path ∅ (Throw SyntaxError).

Definition upstream_ok : Response :=
  {| status := 200; statusText := "OK"; rheaders := json_headers; rbody := BText "{}" |}.

Definition world : World :=
  {| startTime := 1000;
     endTime := 1042;
     isoTime := "2024-05-01T10:00:01.042Z";
     appendTime := "2024-05-01T10:00:01.050Z";
     appendId := "lvo1k2m3abcde";
     stubFailure := fun _ => None;
     requestError := fun _ => None;
     upstream := fun _ => Ok upstream_ok;
     responseError := fun _ => Exn "init[status] must be in the range of 200 to 599";
     probe := fun _ => Ok upstream_ok;
     adminHtml := "<!DOCTYPE html>" |}.

(** The upstream server cannot be reached. *)
Definition offline : World :=
  {| startTime := 1000;
     endTime := 1042;
     isoTime := "2024-05-01T10:00:01.042Z";
     appendTime := "2024-05-01T10:00:01.050Z";
     appendId := "lvo1k2m3abcde";
     stubFailure := fun _ => Some (Exn "Durable Object is overloaded");
     requestError := fun _ => None;
     upstream := fun _ => Throw (Exn "connection refused");
     responseError := fun _ => Exn "init[status] must be in the range of 200 to 599";
     probe := fun _ => Throw (Exn "connection refused");
     adminHtml := "<!DOCTYPE html>" |}.

Definition env : Env :=
  {| ENVIRONMENT := Some "production";
     ADMIN_PASSWORD := Some "s3cret";
     TARGET_API_URL := None;
     TARGET_API_KEY := None |}.

Definition entry : jsobj :=
  <[ "endpoint" := JStr CHAT ]> (<[ "timestamp" := JStr "2024-05-01T10:00:00.000Z" ]> ∅).

Definition logData : LogData :=
  {| endpoint := CHAT;
     targetApi := DEFAULT_TARGET;
     log_status := 200;
     duration := 42;
     timestamp := "2024-05-01T10:00:01.042Z";
     error := None |}.

Definition durable (st : Storage.State) : Durable.Sys := {| store := st; calls := [] |}.

Definition memory : Memory.Sys := {| store := Memory.memoryStorage; calls := [] |}.

(** A store whose configuration names an upstream server. *)
Definition configured : Storage.State :=
  {| Storage.config := Some {[ "targetApiUrl" := JStr "https://llm.example.com/" ]};
     Storage.logs := None |}.

Definition one_log : Storage.State :=
  {| Storage.config := None; Storage.logs := Some [entry] |}.

Definition with_limit (v : string) : Request :=
  {| method := "GET";
     protocol := "https:";
     pathname := "/logs";
     searchParams := [("limit", v)];
     headers := ∅;
     body := BNull;
     json := Throw SyntaxError |}.

(** An admin request carrying the wrong token. *)
Definition wrong_token : Request :=
  request "GET" "/admin/logs" {[ "authorization" := "Bearer guess" ]} (Throw SyntaxError).

(** An admin request carrying the built-in token. *)
Definition demo_probe : Request :=
  request "POST" "/admin/test-connection" {[ "authorization" := "Bearer admin-token" ]}
    (Ok {[ "targetApiUrl" := JStr "https://llm.example.com" ]}).

(** An admin write with no Authorization header. *)
Definition anonymous_write : Request :=
  request "POST" "/admin/config" ∅
    (Ok {[ "targetApiUrl" := JStr "https://other.example.com" ]}).

(** [n] accepted submissions, numbered from 0. *)
Definition burst (n : nat) : list Storage.Append :=
  (fun i => {| Storage.at_time := "2024-05-01T10:00:02.000Z";
               Storage.with_id := "lvo1k2m3zzzzz";
               Storage.submitted := <[ "seq" := JNum (Z.of_nat i) ]> entry |}) <$> seq 0 n.

(** A submission without the required fields. *)
Definition incomplete : Storage.Append :=
  {| Storage.at_time := "2024-05-01T10:00:03.000Z";
     Storage.with_id := "lvo1k2m3yyyyy";
     Storage.submitted := {[ "status" := JNum 200 ]} |}.

Definition preflight (path : string) : Request :=
  request "OPTIONS" path {[ "access-control-request-headers" := "content-type" ]}
    (Throw SyntaxError).

End Sample.

(** ** Further readings used in the statements *)

(** [logData.status >= 200 && logData.status < 300], the test of the
    in-memory [logRequest]. *)
Definition is_2xx (d : LogData) : bool :=
  (200 <=? log_status d)%Z && (log_status d <? 300)%Z.

(** The number of successful records in a sequence of [logRequest] calls,
    and the sum of their durations. *)
Definition successes (calls : list (World * LogData)) : Z :=
  Z.of_nat (length (filter (fun c => is_2xx c.2) calls)).

Definition total_duration (calls : list (World * LogData)) : Z :=
  foldr (fun c acc => (duration c.2 + acc)%Z) 0%Z calls.

(** A configuration the resolver can read: its [targetApiUrl] is falsy or
    a string, so [.replace] is there when it is called. *)
Definition readable (config : jsobj) : bool :=
  match config_target config with
  | Ok _ => true
  | Throw _ => false
  end.

(** The URL the in-memory resolver settles on before it strips the
    slash: the header when it carries a value, else the stored URL when it
    is a non-empty string, else [env.TARGET_API_URL] when it is not empty,
    else the built-in default. *)
Definition resolver_choice (env : Env) (request : Request) (config : jsobj) : string :=
  let fallback := default DEFAULT_TARGET (or_str (TARGET_API_URL env) None) in
  match or_str (headers request !! "x-target-api-url") None with
  | Some h => h
  | None =>
      match config !! "targetApiUrl" with
      | Some (JStr u) => if String.eqb u "" then fallback else u
      | _ => fallback
      end
  end.

(** The string of the given UTF-8 bytes. *)
Definition utf8 (bytes : list nat) : string :=
  foldr (fun b s => String (ascii_of_nat b) s) EmptyString bytes.

(** The white space and line terminator code points of JavaScript:
    U+0009 to U+000D, U+0020, U+00A0, U+1680, U+2000 to U+200A, U+2028,
    U+2029, U+202F, U+205F, U+3000 and U+FEFF. *)
Definition white_space : list string :=
  utf8 <$> ([[9]; [10]; [11]; [12]; [13]; [32]; [194; 160]; [225; 154; 128]]
            ++ ((fun c => [226; 128; c]) <$> seq 128 11)
            ++ [[226; 128; 168]; [226; 128; 169]; [226; 128; 175]; [226; 129; 159];
                [227; 128; 128]; [239; 187; 191]]).

(** The names [forwardRequest] removes or sets itself. *)
Definition forward_reserved : list string :=
  ["authorization"; "host"; "content-length"; "x-target-api-url"; "x-target-api-key";
   "user-agent"].

Module Case.

(** An update whose URL is a number other than 0. *)
Definition bad_url : jsobj := {[ "targetApiUrl" := JNum 5 ]}.

Definition new_url : jsobj := {[ "targetApiUrl" := JStr "https://llm.example.com" ]}.

Definition new_password : jsobj := {[ "adminPassword" := JStr "hunter2" ]}.

Definition post (path : string) (data : result jsobj) : Request :=
  https_request "POST" path [] ∅ data.

(** A submitted log record that names its own id and time. *)
Definition submitted : jsobj :=
  <[ "id" := JStr "mine" ]>
  (<[ "endpoint" := JStr EMBEDDINGS ]>
  (<[ "timestamp" := JStr "1999-01-01T00:00:00.000Z" ]>
  (<[ "status" := JNum 200 ]> ∅))).

(** A log of three entries, numbered 0, 1 and 2. *)
Definition three_logs : Storage.State :=
  Storage.appendAll (Sample.burst 3) Storage.empty.

(** [limit=%C2%A02]: a no-break space, then the number. *)
Definition padded_limit : Request := Sample.with_limit (utf8 [194; 160] +:+ "2").

Definition failed_call : LogData :=
  {| endpoint := COMPLETIONS;
     targetApi := DEFAULT_TARGET;
     log_status := 502;
     duration := 8;
     timestamp := "2024-05-01T10:00:05.000Z";
     error := None |}.

(** The upstream server answers 429 with a body. *)
Definition throttled : Response :=
  {| status := 429;
     statusText := "Too Many Requests";
     rheaders := <[ "retry-after" := "3" ]> json_headers;
     rbody := BText "rate limit reached" |}.

Definition busy : World :=
  {| startTime := 5000;
     endTime := 5300;
     isoTime := "2024-05-01T10:00:05.300Z";
     appendTime := "2024-05-01T10:00:05.301Z";
     appendId := "lvo1k2m3qqqqq";
     stubFailure := fun _ => None;
     requestError := fun _ => None;
     upstream := fun _ => Ok throttled;
     responseError := fun _ => Exn "init[status] must be in the range of 200 to 599";
     probe := fun _ => Ok throttled;
     adminHtml := "<!DOCTYPE html>" |}.

End Case.

(** * Properties *)

(** Unfolds the plumbing of a stateful computation. *)
Ltac run_m :=
  cbv [mbind M_bind mret M_ret tryM lift throw emit Memory.get Memory.put].

(** Membership in a list that is written out. *)
Ltac in_list := cbn; repeat first [apply list_elem_of_here | apply list_elem_of_further].

(** ** The bounded log *)

Section Lists.

Context {A : Type}.
Implicit Types (l k : list A) (n : nat).

Lemma lastn_length n l : length (lastn n l) = min n (length l).
Proof. unfold lastn. rewrite length_drop. lia. Qed.

Lemma lastn_all n l : length l ≤ n → lastn n l = l.
Proof. intros H. unfold lastn. replace (length l - n) with 0 by lia. done. Qed.

Lemma lastn_app_lastn n l k : lastn n (lastn n l ++ k) = lastn n (l ++ k).
Proof.
  destruct (decide (length l ≤ n)) as [Hle|Hgt].
  - by rewrite (lastn_all n l).
  - unfold lastn at 1 3. rewrite !length_app, lastn_length.
    replace (n `min` length l + length k - n) with (length k) by lia.
    replace (length l + length k - n) with ((length l - n) + length k) by lia.
    unfold lastn. rewrite <- drop_drop.
    by rewrite (drop_app_le l k (length l - n)) by lia.
Qed.

Lemma pushLog_lastn (e : A) l : pushLog e l = lastn LOG_CAP (l ++ [e]).
Proof.
  unfold pushLog, lastn. destruct (LOG_CAP <? length (l ++ [e])) eqn:E; [done|].
  apply Nat.ltb_ge in E. by replace (length (l ++ [e]) - LOG_CAP) with 0 by lia.
Qed.

Lemma pushLog_length (e : A) l : length (pushLog e l) ≤ LOG_CAP.
Proof. rewrite pushLog_lastn, lastn_length. lia. Qed.

Lemma pushLog_window (e : A) init l :
  pushLog e (lastn LOG_CAP (init ++ l)) = lastn LOG_CAP (init ++ l ++ [e]).
Proof. by rewrite pushLog_lastn, lastn_app_lastn, <- app_assoc. Qed.

End Lists.

Lemma addLog_logs now id logData st :
  Storage.stored_logs (Storage.addLog now id logData st).2 =
  if Storage.accepted {| Storage.at_time := now; Storage.with_id := id; Storage.submitted := logData |}
  then pushLog (Storage.newLog now id logData) (Storage.stored_logs st)
  else Storage.stored_logs st.
Proof.
  unfold Storage.addLog, Storage.accepted. simpl.
  destruct (truthy_prop (logData !! "endpoint")), (truthy_prop (logData !! "timestamp")); done.
Qed.

Lemma appendAll_window calls : ∀ init st,
  Storage.stored_logs st = lastn LOG_CAP init →
  Storage.stored_logs (Storage.appendAll calls st) =
  lastn LOG_CAP (init ++ Storage.created calls).
Proof.
  induction calls as [|[now id logData] rest IH]; intros init st Hst; simpl.
  - by rewrite app_nil_r.
  - unfold Storage.created. rewrite filter_cons.
    destruct (decide (Storage.accepted (Storage.Build_Append now id logData))) as [Hacc|Hrej].
    + rewrite fmap_cons. simpl.
      rewrite (IH (init ++ [Storage.newLog now id logData])).
      * by rewrite <- app_assoc.
      * rewrite addLog_logs. apply Is_true_true in Hacc. rewrite Hacc, Hst.
        by rewrite pushLog_lastn, lastn_app_lastn.
    + apply IH. rewrite addLog_logs. apply Is_true_false in Hrej. by rewrite Hrej.
Qed.

Lemma logRequest_store w d (s : Memory.Sys) :
  Memory.logs (store (Memory.logRequest w d s).2) =
  pushLog (Storage.newLog (appendTime w) (appendId w) (LogData_obj d)) (Memory.logs (store s)).
Proof. reflexivity. Qed.

Lemma logAll_window calls : ∀ init (s : Memory.Sys),
  Memory.logs (store s) = lastn LOG_CAP init →
  Memory.logs (store (Memory.logAll calls s)) = lastn LOG_CAP (init ++ Memory.logged calls).
Proof.
  induction calls as [|[w d] rest IH]; intros init s Hs.
  - simpl. by rewrite app_nil_r.
  - change (Memory.logAll ((w, d) :: rest) s)
      with (Memory.logAll rest (Memory.logRequest w d s).2).
    change (Memory.logged ((w, d) :: rest))
      with (Storage.newLog (appendTime w) (appendId w) (LogData_obj d) :: Memory.logged rest).
    rewrite (IH (init ++ [Storage.newLog (appendTime w) (appendId w) (LogData_obj d)])).
    + by rewrite <- app_assoc.
    + by rewrite logRequest_store, Hs, pushLog_lastn, lastn_app_lastn.
Qed.

(** C3. Starting from a log of at most 1000 entries, any sequence of
    [addLog] calls on the Durable Object, and any sequence of [logRequest]
    calls on [memoryStorage], leaves a log of at most 1000 entries, and
    that log is the last 1000 of the initial entries followed by the
    entries created, in the order of insertion. *)
Theorem log_bounded_ring :
  (∀ calls st,
     length (Storage.stored_logs st) ≤ LOG_CAP →
     length (Storage.stored_logs (Storage.appendAll calls st)) ≤ LOG_CAP ∧
     Storage.stored_logs (Storage.appendAll calls st) =
       lastn LOG_CAP (Storage.stored_logs st ++ Storage.created calls)) ∧
  (∀ calls (s : Memory.Sys),
     length (Memory.logs (store s)) ≤ LOG_CAP →
     length (Memory.logs (store (Memory.logAll calls s))) ≤ LOG_CAP ∧
     Memory.logs (store (Memory.logAll calls s)) =
       lastn LOG_CAP (Memory.logs (store s) ++ Memory.logged calls)).
Proof.
  split.
  - intros calls st Hlen.
    assert (Storage.stored_logs (Storage.appendAll calls st) =
            lastn LOG_CAP (Storage.stored_logs st ++ Storage.created calls)) as ->.
    { apply appendAll_window. by rewrite lastn_all. }
    split; [|done]. rewrite lastn_length. lia.
  - intros calls s Hlen.
    assert (Memory.logs (store (Memory.logAll calls s)) =
            lastn LOG_CAP (Memory.logs (store s) ++ Memory.logged calls)) as ->.
    { apply logAll_window. by rewrite lastn_all. }
    split; [|done]. rewrite lastn_length. lia.
Qed.

Lemma log_bounded_ring_witness :
  let calls := Sample.incomplete :: Sample.burst 2 in
  length (Storage.stored_logs Sample.one_log) ≤ LOG_CAP ∧
  length (Storage.stored_logs (Storage.appendAll calls Sample.one_log)) ≤ LOG_CAP ∧
  Storage.stored_logs (Storage.appendAll calls Sample.one_log) =
    lastn LOG_CAP (Storage.stored_logs Sample.one_log ++ Storage.created calls).
Proof.
  intros calls.
  assert (length (Storage.stored_logs Sample.one_log) ≤ LOG_CAP) as H
    by (unfold LOG_CAP; simpl; lia).
  split; [exact H|].
  exact (proj1 log_bounded_ring calls Sample.one_log H).
Defined.

(** 1001 submissions into an empty log: 1000 entries stay, and the oldest
    of them is the second submission. *)
Example ring_evicts_oldest :
  let st := Storage.appendAll (Sample.burst 1001) Storage.empty in
  length (Storage.stored_logs st) = 1000 ∧
  (Storage.stored_logs st !! 0) ≫= (.!! "seq") = Some (JNum 1) ∧
  (Storage.stored_logs st !! 999) ≫= (.!! "seq") = Some (JNum 1000).
Proof. vm_compute. repeat split. Qed.

Example rejected_submission_leaves_log :
  Storage.appendAll [Sample.incomplete] Sample.one_log = Sample.one_log.
Proof. reflexivity. Qed.

(** ** Strings and slices on small inputs *)

Example parseInt_prefix : Str.parseInt "10abc" = Some 10%Z.
Proof. reflexivity. Qed.

Example parseInt_hex : Str.parseInt "0x1f" = Some 31%Z.
Proof. reflexivity. Qed.

Example parseInt_negative : Str.parseInt " -5" = Some (-5)%Z.
Proof. reflexivity. Qed.

Example parseInt_null : Str.parseInt "null" = None.
Proof. reflexivity. Qed.

Example parseInt_no_break_space : Str.parseInt (utf8 [194; 160] +:+ "5") = Some 5%Z.
Proof. reflexivity. Qed.

Example parseInt_byte_order_mark : Str.parseInt (utf8 [239; 187; 191] +:+ " 12px") = Some 12%Z.
Proof. reflexivity. Qed.

(** U+200B, the zero-width space, is not white space. *)
Example parseInt_zero_width_space : Str.parseInt (utf8 [226; 128; 139] +:+ "5") = None.
Proof. reflexivity. Qed.

(** [parseInt] reads through any run of white space at the start. *)
Lemma trimStart_white_space ws s :
  ws ∈ white_space → Str.trimStart (ws +:+ s) = Str.trimStart s.
Proof.
  intros H. vm_compute in H.
  repeat (apply elem_of_cons in H as [->|H]; [reflexivity|]).
  by apply elem_of_nil in H.
Qed.

Lemma parseInt_white_space ws s :
  ws ∈ white_space → Str.parseInt (ws +:+ s) = Str.parseInt s.
Proof.
  intros H. unfold Str.parseInt. by rewrite trimStart_white_space.
Qed.

Example replace_first_only :
  Str.replace "/admin" "" "/admin/admin/x" = "/admin/x".
Proof. reflexivity. Qed.

(** A prefix cut that leaves a dot segment in front: the parser drops
    it. *)
Example setPathname_dot_segment :
  setPathname (Str.replace "/api/storage" "" "/api/storage../config") = "/config".
Proof. reflexivity. Qed.

Example setPathname_adds_slash :
  (setPathname "", setPathname "x/logs", setPathname "/logs") = ("/", "/x/logs", "/logs").
Proof. reflexivity. Qed.

Example strip_one_slash : Str.stripTrailingSlash "https://api.openai.com//" = "https://api.openai.com/".
Proof. reflexivity. Qed.

Example slice_last_two : slice (-2) [1; 2; 3] = [2; 3].
Proof. reflexivity. Qed.

Example slice_negative_limit : slice (- (-2)) [1; 2; 3] = [3].
Proof. reflexivity. Qed.

(** ** Reading the log *)

Lemma lastn_suffix {A} n (l : list A) : lastn n l `suffix_of` l.
Proof. apply suffix_drop. Qed.

Lemma slice_neg {A} (n : Z) (l : list A) :
  (0 < n)%Z → slice (- n) l = lastn (Z.to_nat n) l.
Proof.
  intros Hn. unfold slice, lastn.
  destruct (- n <? 0)%Z eqn:E; [|apply Z.ltb_ge in E; lia].
  f_equal. lia.
Qed.

Lemma limit_of_cases request :
  Storage.limit_of request =
  match searchParams_get "limit" (searchParams request) with
  | None => 50%Z
  | Some v =>
      match Str.parseInt v with
      | None => 50%Z
      | Some n => if (n =? 0)%Z then 50%Z else n
      end
  end.
Proof.
  unfold Storage.limit_of. by destruct (searchParams_get "limit" (searchParams request)).
Qed.

(** C9, as the code has it. The limit is 50 when the parameter is absent,
    when [parseInt] finds no number in it, and also when the number is 0;
    otherwise it is the number [parseInt] reads. For a positive limit the
    object and the in-memory handler both answer with the last [limit]
    entries of the log, a suffix of it, so in insertion order. *)
Theorem getLogs_window now id w request :
  method request = "GET" →
  (0 < Storage.limit_of request)%Z →
  Storage.limit_of request =
    match searchParams_get "limit" (searchParams request) with
    | None => 50%Z
    | Some v =>
        match Str.parseInt v with
        | None => 50%Z
        | Some n => if (n =? 0)%Z then 50%Z else n
        end
    end ∧
  (∀ st,
     let window := lastn (Z.to_nat (Storage.limit_of request)) (Storage.stored_logs st) in
     Storage.handleLogs now id request st = Ok (json_response 200 (JArr (JObj <$> window)), st) ∧
     window `suffix_of` Storage.stored_logs st ∧
     length window = Z.to_nat (Storage.limit_of request) `min` length (Storage.stored_logs st)) ∧
  (∀ s : Memory.Sys,
     let window := lastn (Z.to_nat (Storage.limit_of request)) (Memory.logs (store s)) in
     Memory.handleLogs w request s = (Ok (json_response 200 (JArr (JObj <$> window))), s)).
Proof.
  intros Hm Hpos. split; [apply limit_of_cases|]. split.
  - intros st window. split; [|split].
    + unfold Storage.handleLogs, Storage.getLogs. rewrite Hm. simpl.
      by rewrite slice_neg.
    + apply lastn_suffix.
    + apply lastn_length.
  - intros s window. unfold Memory.handleLogs. rewrite Hm.
    cbn -[slice Storage.limit_of lastn]. run_m. by rewrite slice_neg.
Qed.

Lemma getLogs_window_witness :
  method Case.padded_limit = "GET" ∧
  (0 < Storage.limit_of Case.padded_limit)%Z ∧
  Storage.limit_of Case.padded_limit = 2%Z ∧
  length (Storage.stored_logs Case.three_logs) = 3 ∧
  Storage.handleLogs "" "" Case.padded_limit Case.three_logs =
    Ok (json_response 200 (JArr (JObj <$> drop 1 (Storage.stored_logs Case.three_logs))),
        Case.three_logs).
Proof.
  split; [reflexivity|]. split; [reflexivity|]. split; [reflexivity|]. split; [reflexivity|].
  apply (proj1 (proj2 (getLogs_window "" "" Sample.world Case.padded_limit
                         eq_refl eq_refl)) Case.three_logs).
Defined.

(** C9 as stated fails at [limit=0]: the parameter is numeric, its value
    is 0, and the answer is not the last 0 entries but the last 50. *)
Lemma getLogs_zero_limit_counterexample :
  Str.parseInt "0" = Some 0%Z ∧
  Storage.limit_of (Sample.with_limit "0") = 50%Z ∧
  Storage.handleLogs "" "" (Sample.with_limit "0") Sample.one_log =
    Ok (json_response 200 (JArr [JObj Sample.entry]), Sample.one_log) ∧
  Storage.handleLogs "" "" (Sample.with_limit "0") Sample.one_log ≠
    Ok (json_response 200 (JArr (JObj <$> lastn 0 (Storage.stored_logs Sample.one_log))),
        Sample.one_log).
Proof.
  split; [reflexivity|]. split; [reflexivity|]. split; [reflexivity|].
  intros H. vm_compute in H. discriminate H.
Qed.

(** ** Writing the configuration *)

Lemma setConfig_rejects now data st :
  field_rejected data "targetApiUrl" || field_rejected data "adminPassword" = true →
  (Storage.setConfig now data st).2 = st ∧
  status (Storage.setConfig now data st).1 = 400%Z.
Proof.
  unfold Storage.setConfig, field_rejected. intros H.
  destruct (truthy_prop (data !! "targetApiUrl")
            && negb (from_option is_string false (data !! "targetApiUrl"))); [done|].
  simpl in H. by rewrite H.
Qed.

Lemma setConfig_merges now data st :
  field_rejected data "targetApiUrl" || field_rejected data "adminPassword" = false →
  let merged := <[ "updatedAt" := JStr now ]> (spread (Storage.stored_config st) data) in
  Storage.setConfig now data st =
    (json_response 200 (JObj merged),
     {| Storage.config := Some merged; Storage.logs := Storage.logs st |}) ∧
  merged !! "updatedAt" = Some (JStr now) ∧
  (∀ k v, k ≠ "updatedAt" → data !! k = Some v → merged !! k = Some v) ∧
  (∀ k, k ≠ "updatedAt" → data !! k = None →
        merged !! k = Storage.stored_config st !! k).
Proof.
  intros H merged. unfold field_rejected in H. apply orb_false_elim in H as [H1 H2].
  split; [|split; [|split]].
  - unfold Storage.setConfig. by rewrite H1, H2.
  - apply lookup_insert_eq.
  - intros k v Hk Hd. unfold merged, spread.
    rewrite lookup_insert_ne by done. by apply lookup_union_Some_l.
  - intros k Hk Hd. unfold merged, spread.
    rewrite lookup_insert_ne by done. by apply lookup_union_r.
Qed.

(** Two updates on disjoint fields: the record holds both. *)
Lemma setConfig_disjoint now1 now2 a b st :
  field_rejected a "targetApiUrl" || field_rejected a "adminPassword" = false →
  field_rejected b "targetApiUrl" || field_rejected b "adminPassword" = false →
  a ##ₘ b →
  let st' := (Storage.setConfig now2 b (Storage.setConfig now1 a st).2).2 in
  (∀ k v, k ≠ "updatedAt" → a !! k = Some v → Storage.stored_config st' !! k = Some v) ∧
  (∀ k v, k ≠ "updatedAt" → b !! k = Some v → Storage.stored_config st' !! k = Some v).
Proof.
  intros Ha Hb Hdisj st'.
  destruct (setConfig_merges now1 a st Ha) as (E1 & _ & Hin1 & _).
  destruct (setConfig_merges now2 b (Storage.setConfig now1 a st).2 Hb) as (E2 & _ & Hin2 & Hout2).
  assert (Storage.stored_config st' =
          <[ "updatedAt" := JStr now2 ]>
            (spread (Storage.stored_config (Storage.setConfig now1 a st).2) b)) as ->.
  { unfold st'. by rewrite E2. }
  split.
  - intros k v Hk Hak.
    assert (b !! k = None) as Hbk.
    { destruct (b !! k) as [v'|] eqn:E; [|done].
      exfalso. eapply (map_disjoint_spec a b); eauto. }
    rewrite (Hout2 k Hk Hbk).
    assert (Storage.stored_config (Storage.setConfig now1 a st).2 =
            <[ "updatedAt" := JStr now1 ]> (spread (Storage.stored_config st) a)) as ->.
    { by rewrite E1. }
    by apply Hin1.
  - intros k v Hk Hbk. by apply Hin2.
Qed.

(** C8 at [{ targetApiUrl: 0 }]. The field is provided and is not a
    string, yet the object answers 200 and stores the number: the test
    [data.targetApiUrl && typeof data.targetApiUrl !== 'string'] lets every
    falsy value through. The in-memory handler does the same. *)
Theorem setConfig_accepts_falsy_nonstring now w st (s : Memory.Sys) :
  let data : jsobj := {[ "targetApiUrl" := JNum 0 ]} in
  let post := Sample.request "POST" "/config" ∅ (Ok data) in
  is_string (JNum 0) = false ∧
  status (Storage.setConfig now data st).1 = 200%Z ∧
  Storage.stored_config (Storage.setConfig now data st).2 !! "targetApiUrl" = Some (JNum 0) ∧
  (∃ r s', Memory.handleConfig w post s = (Ok r, s') ∧ status r = 200%Z ∧
           Memory.config (store s') !! "targetApiUrl" = Some (JNum 0)).
Proof.
  intros data post. split; [done|].
  destruct (setConfig_merges now data st eq_refl) as (E & _ & Hin & _).
  rewrite E. simpl. split; [done|]. split.
  - by apply Hin.
  - eexists _, _. split; [reflexivity|]. split; [done|]. simpl.
    rewrite lookup_insert_ne by done. unfold spread.
    by apply lookup_union_Some_l.
Qed.

(** ** Statistics *)

Lemma getStats_total st :
  reported_total (Ok (Storage.getStats st)) = Some (Z.of_nat (length (Storage.stored_logs st))).
Proof. reflexivity. Qed.

Lemma getStats_pure request st :
  method request = "GET" →
  Storage.handleStats request st = Ok (Storage.getStats st, st).
Proof. intros H. unfold Storage.handleStats. by rewrite H. Qed.

Lemma handleStats_total (s : Memory.Sys) :
  reported_total (Memory.handleStats (Sample.get "/admin/stats") s).1 =
  Some (Memory.c_totalRequests (Memory.stats (store s))).
Proof. reflexivity. Qed.

Lemma clear_keeps_counters w (s : Memory.Sys) :
  let s' := (Memory.handleLogs w (Sample.request "DELETE" "/admin/logs" ∅ (Throw SyntaxError)) s).2 in
  Memory.logs (store s') = [] ∧ Memory.stats (store s') = Memory.stats (store s).
Proof. done. Qed.

(** The part of C5 that holds: on the configuration and on the log the
    two stores answer alike and stay in step, for every request whose
    body, when one is read, is a JSON object. *)
Lemma stores_agree_on_config_and_logs w request st (s : Memory.Sys) :
  Storage.stored_config st = Memory.config (store s) →
  Storage.stored_logs st = Memory.logs (store s) →
  (method request = "POST" → ∃ data, json request = Ok data) →
  ∀ handler_d handler_m,
    (handler_d = Storage.handleConfig (isoTime w) ∧ handler_m = Memory.handleConfig w) ∨
    (handler_d = Storage.handleLogs (appendTime w) (appendId w) ∧
     handler_m = Memory.handleLogs w) →
    ∃ resp st' s',
      handler_d request st = Ok (resp, st') ∧
      handler_m request s = (Ok resp, s') ∧
      Storage.stored_config st' = Memory.config (store s') ∧
      Storage.stored_logs st' = Memory.logs (store s').
Proof.
  intros Hc Hl Hjson handler_d handler_m [[-> ->]|[-> ->]].
  - unfold Storage.handleConfig, Memory.handleConfig.
    destruct (String.eqb_spec (method request) "GET") as [_|_].
    { eexists _, _, _. split; [reflexivity|]. run_m.
      unfold Storage.getConfig. rewrite Hc. by repeat split. }
    destruct (String.eqb_spec (method request) "POST") as [Hpost|_].
    { destruct (Hjson Hpost) as [data Hdata]. rewrite Hdata.
      unfold Storage.setConfig. run_m. simpl.
      destruct (truthy_prop (data !! "targetApiUrl")
                && negb (from_option is_string false (data !! "targetApiUrl"))).
      { by eexists _, _, _. }
      destruct (truthy_prop (data !! "adminPassword")
                && negb (from_option is_string false (data !! "adminPassword"))).
      { by eexists _, _, _. }
      rewrite Hc. by eexists _, _, _. }
    by eexists _, _, _.
  - unfold Storage.handleLogs, Memory.handleLogs.
    destruct (String.eqb_spec (method request) "GET") as [_|_].
    { eexists _, _, _. split; [reflexivity|]. run_m.
      unfold Storage.getLogs. rewrite Hl. by repeat split. }
    destruct (String.eqb_spec (method request) "POST") as [Hpost|_].
    { destruct (Hjson Hpost) as [data Hdata]. rewrite Hdata.
      unfold Storage.addLog. run_m. simpl.
      destruct (negb (truthy_prop (data !! "endpoint"))
                || negb (truthy_prop (data !! "timestamp"))).
      { by eexists _, _, _. }
      rewrite Hl. by eexists _, _, _. }
    destruct (String.eqb_spec (method request) "DELETE") as [_|_].
    { by eexists _, _, _. }
    by eexists _, _, _.
Qed.

(** C5 at one logged request followed by a clear. The Durable Object
    counts the stored log and reports 0; the in-memory build reports the
    counter that [logRequest] raised and that the clear leaves alone, 1.
    An entry appended through the admin route raises no counter: there
    the object reports 1 and the in-memory build 0. *)
Theorem stats_diverge :
  let w := Sample.world in
  let clear := Sample.request "DELETE" "/admin/logs" ∅ (Throw SyntaxError) in
  let append := Sample.request "POST" "/admin/logs" ∅ (Ok Sample.entry) in
  let stats := Sample.get "/admin/stats" in
  (let st1 := (Storage.addLog (appendTime w) (appendId w) (LogData_obj Sample.logData)
                 Storage.empty).2 in
   let st2 := (Storage.clearLogs st1).2 in
   reported_total (Ok (Storage.getStats st2)) = Some 0%Z) ∧
  (let s1 := (Memory.logRequest w Sample.logData Sample.memory).2 in
   let s2 := (Memory.handleLogs w clear s1).2 in
   Memory.logs (store s2) = [] ∧
   reported_total (Memory.handleStats stats s2).1 = Some 1%Z) ∧
  (let st1 := (Storage.addLog (appendTime w) (appendId w) Sample.entry Storage.empty).2 in
   reported_total (Ok (Storage.getStats st1)) = Some 1%Z) ∧
  (let s1 := (Memory.handleLogs w append Sample.memory).2 in
   length (Memory.logs (store s1)) = 1 ∧
   reported_total (Memory.handleStats stats s1).1 = Some 0%Z).
Proof. vm_compute. repeat split. Qed.

(** ** The router *)

Lemma https_request_passes env m path params hs data :
  https_rejected env (https_request m path params hs data) = false.
Proof.
  unfold https_rejected. destruct (ENVIRONMENT env); [|done].
  simpl. apply andb_false_r.
Qed.

(** A path under [/admin/] is not under [/api/storage]. *)
Lemma admin_not_storage p :
  Str.startsWith p "/admin/" = true → Str.startsWith p "/api/storage" = false.
Proof.
  destruct p as [|c1 p]; [done|]. cbn [Str.startsWith].
  destruct (Ascii.eqb_spec "/" c1); [|done].
  destruct p as [|c2 p]; [done|]. cbn [Str.startsWith].
  destruct (Ascii.eqb_spec "a" c2); [|done].
  destruct p as [|c3 p]; [done|]. cbn [Str.startsWith].
  by destruct (Ascii.eqb_spec "d" c3) as [<-|].
Qed.

Lemma admin_prefix_not_console p :
  Str.startsWith p "/admin/" = true → String.eqb p "/admin" = false.
Proof.
  intros H. apply String.eqb_neq. intros ->. done.
Qed.

Lemma verifyAdminAuth_false env request :
  (headers request !! "authorization" = None ∨
   ∃ h, headers request !! "authorization" = Some h ∧
        (Str.replace "Bearer " "" h = "" ∨
         (Some (Str.replace "Bearer " "" h) ≠ ADMIN_PASSWORD env ∧
          Str.replace "Bearer " "" h ≠ "admin-token"))) →
  Durable.verifyAdminAuth env request = false.
Proof.
  unfold Durable.verifyAdminAuth. intros [->|(h & -> & H)]; [done|].
  destruct (String.eqb h "") eqn:Eh; [done|].
  destruct H as [->|[Hpw Htok]]; [done|].
  destruct (String.eqb (Str.replace "Bearer " "" h) "") eqn:Et; [done|].
  rewrite bool_decide_eq_false_2 by done.
  by apply String.eqb_neq in Htok as ->.
Qed.

(** The statuses of the admin API of the in-memory build. *)
Lemma handleTestConnection_status {St} w request (s : Sys St) :
  ∃ r s', handleTestConnection w request s = (Ok r, s') ∧
          status r ∈ [200; 400; 502]%Z.
Proof.
  unfold handleTestConnection. run_m.
  destruct (json request) as [data|e]; [|eexists _, _; split; [done|in_list]].
  destruct (data !! "targetApiUrl") as [v|]; [|eexists _, _; split; [done|in_list]].
  destruct (truthy v); [|eexists _, _; split; [done|in_list]]. simpl.
  destruct (probe w v) as [resp|e]; [|eexists _, _; split; [done|in_list]].
  destruct (connection_ok (status resp)); eexists _, _; (split; [done|in_list]).
Qed.

Lemma memory_handleAdminApi_status w request (m : Memory.Sys) :
  ∃ r m', Memory.handleAdminApi w request m = (Ok r, m') ∧
          status r ∈ [200; 400; 404; 405; 502]%Z.
Proof.
  unfold Memory.handleAdminApi.
  destruct (_ && _).
  { destruct (handleTestConnection_status w request m) as (r & m' & -> & Hs).
    exists r, m'. split; [done|].
    repeat (apply elem_of_cons in Hs as [->|Hs]; [in_list|]). by apply elem_of_nil in Hs. }
  destruct (String.eqb _ "/config").
  { unfold Memory.handleConfig.
    destruct (String.eqb (method request) "GET"); [eexists _, _; split; [done|in_list]|].
    destruct (String.eqb (method request) "POST"); [|eexists _, _; split; [done|in_list]].
    run_m. destruct (json request) as [data|e]; [|eexists _, _; split; [done|in_list]].
    destruct (_ && _); [eexists _, _; split; [done|in_list]|].
    destruct (_ && _); eexists _, _; (split; [done|in_list]). }
  destruct (Str.startsWith _ "/logs").
  { unfold Memory.handleLogs.
    destruct (String.eqb (method request) "GET"); [eexists _, _; split; [done|in_list]|].
    destruct (String.eqb (method request) "POST").
    { run_m. destruct (json request) as [data|e]; [|eexists _, _; split; [done|in_list]].
      destruct (_ || _); eexists _, _; (split; [done|in_list]). }
    destruct (String.eqb (method request) "DELETE"); eexists _, _; (split; [done|in_list]). }
  destruct (String.eqb _ "/stats").
  { unfold Memory.handleStats.
    destruct (String.eqb (method request) "GET"); eexists _, _; (split; [done|in_list]). }
  eexists _, _; split; [done|in_list].
Qed.

Lemma memory_admin_never_unauthorized env w request (m : Memory.Sys) :
  Str.startsWith (pathname request) "/admin/" = true →
  ∃ r m',
    Memory.fetch env w request m = (Ok r, m') ∧
    status r ≠ 401%Z ∧
    (https_rejected env request = false → pathname request ≠ "/admin/" →
     Memory.handleAdminApi w request m = (Ok r, m')).
Proof.
  intros Hpre. unfold Memory.fetch, tryM.
  destruct (https_rejected env request) eqn:Hg.
  { eexists _, _. split; [done|]. split; [cbn; lia|]. done. }
  cbv zeta. rewrite (admin_prefix_not_console _ Hpre). 
  destruct (String.eqb_spec (pathname request) "/admin/") as [Hp|Hp].
  { eexists _, _. split; [done|]. split; [cbn; lia|]. done. }
  rewrite Hpre. unfold Memory.verifyAdminAuth. cbn [orb negb].
  destruct (memory_handleAdminApi_status w request m) as (r & m' & Hrun & Hs).
  exists r, m'. rewrite Hrun. split; [done|]. split; [|done].
  intros E. rewrite E in Hs.
  repeat (apply elem_of_cons in Hs as [Hs|Hs]; [lia|]). by apply elem_of_nil in Hs.
Qed.

(** C1, as the code has it. In the Durable build a request under [/admin/]
    that passes the HTTPS gate is answered 401, with the store untouched
    and no call issued, when it has no Authorization header or when the
    token left by removing the first "Bearer " from it is empty or is
    neither [env.ADMIN_PASSWORD] nor the built-in "admin-token". In the
    in-memory build [verifyAdminAuth] approves every request: the router
    answers no request under [/admin/] with 401, whatever its headers, and
    one that passes the gate is answered by [handleAdminApi]. *)
Theorem admin_api_requires_token env w request s :
  https_rejected env request = false →
  Str.startsWith (pathname request) "/admin/" = true →
  pathname request ≠ "/admin/" →
  (headers request !! "authorization" = None ∨
   ∃ h, headers request !! "authorization" = Some h ∧
        (Str.replace "Bearer " "" h = "" ∨
         (Some (Str.replace "Bearer " "" h) ≠ ADMIN_PASSWORD env ∧
          Str.replace "Bearer " "" h ≠ "admin-token"))) →
  Durable.fetch env w request s = (Ok unauthorized, s) ∧
  status unauthorized = 401%Z ∧
  (∀ r, Memory.verifyAdminAuth r = true) ∧
  (∀ m : Memory.Sys, ∃ r m',
     Memory.fetch env w request m = (Ok r, m') ∧
     Memory.handleAdminApi w request m = (Ok r, m') ∧
     status r ≠ 401%Z) ∧
  (∀ request' (m : Memory.Sys),
     Str.startsWith (pathname request') "/admin/" = true →
     ∃ r m', Memory.fetch env w request' m = (Ok r, m') ∧ status r ≠ 401%Z).
Proof.
  intros Hgate Hpre Hne Htok. split; [|split; [done|split; [done|split]]].
  - unfold Durable.fetch. rewrite Hgate.
    rewrite (admin_not_storage _ Hpre), (admin_prefix_not_console _ Hpre).
    apply String.eqb_neq in Hne as ->. simpl orb. cbv iota.
    rewrite Hpre. rewrite (verifyAdminAuth_false env request Htok). done.
  - intros m.
    destruct (memory_admin_never_unauthorized env w request m Hpre) as (r & m' & Hf & Hs & Hrun).
    exists r, m'. split; [done|]. split; [by apply Hrun|done].
  - intros request' m Hpre'.
    destruct (memory_admin_never_unauthorized env w request' m Hpre') as (r & m' & Hf & Hs & _).
    by exists r, m'.
Qed.

Lemma admin_api_requires_token_witness :
  Durable.fetch Sample.env Sample.world Sample.wrong_token (Sample.durable Sample.one_log) =
    (Ok unauthorized, Sample.durable Sample.one_log) ∧
  status unauthorized = 401%Z ∧
  (∀ r, Memory.verifyAdminAuth r = true) ∧
  (∀ m : Memory.Sys, ∃ r m',
     Memory.fetch Sample.env Sample.world Sample.wrong_token m = (Ok r, m') ∧
     Memory.handleAdminApi Sample.world Sample.wrong_token m = (Ok r, m') ∧
     status r ≠ 401%Z) ∧
  (∀ request' (m : Memory.Sys),
     Str.startsWith (pathname request') "/admin/" = true →
     ∃ r m', Memory.fetch Sample.env Sample.world request' m = (Ok r, m') ∧ status r ≠ 401%Z).
Proof.
  apply (admin_api_requires_token Sample.env Sample.world Sample.wrong_token
           (Sample.durable Sample.one_log)).
  - reflexivity.
  - reflexivity.
  - discriminate.
  - right. exists "Bearer guess". split; [reflexivity|].
    right. split; vm_compute; discriminate.
Defined.

(** The same request in the in-memory build: the log is read out. *)
Example memory_wrong_token_is_served :
  Memory.fetch Sample.env Sample.world Sample.wrong_token Sample.memory =
    (Ok (json_response 200 (JArr [])), Sample.memory).
Proof. reflexivity. Qed.

(** C1 as stated fails. In the Durable build the token "admin-token" is
    not the configured credential, yet the probe of test-connection runs
    and is answered 200; in the in-memory build a configuration write
    with no Authorization header at all is carried out. *)
Lemma admin_auth_counterexample :
  (Some "admin-token" ≠ ADMIN_PASSWORD Sample.env ∧
   ∃ r, Durable.fetch Sample.env Sample.world Sample.demo_probe (Sample.durable Storage.empty) =
          (Ok r, {| store := Storage.empty;
                    calls := [ProbeCall (JStr "https://llm.example.com")] |}) ∧
        status r = 200%Z) ∧
  (headers Sample.anonymous_write !! "authorization" = None ∧
   ∃ r s', Memory.fetch Sample.env Sample.world Sample.anonymous_write Sample.memory = (Ok r, s') ∧
           status r = 200%Z ∧
           Memory.config (store s') !! "targetApiUrl" = Some (JStr "https://other.example.com")).
Proof.
  split.
  - split; [discriminate|]. eexists. split; [vm_compute; reflexivity|reflexivity].
  - split; [reflexivity|]. eexists _, _. split; [vm_compute; reflexivity|].
    split; reflexivity.
Qed.

(** The request the router hands to the object for a path under
    [/api/storage]. *)
Lemma storage_route env w request s :
  https_rejected env request = false →
  Str.startsWith (pathname request) "/api/storage" = true →
  Durable.fetch env w request s =
  tryM (Durable.stub_fetch w
          (with_pathname request (Str.replace "/api/storage" "" (pathname request))))
       (fun e => mret (internal_error e)) s.
Proof.
  intros Hgate Hpre. unfold Durable.fetch. rewrite Hgate. cbv zeta. by rewrite Hpre.
Qed.

Lemma stub_fetch_run w r (s : Durable.Sys) resp st' :
  stubFailure w r = None →
  Storage.fetch (appendTime w) (appendId w) r (store s) = Ok (resp, st') →
  Durable.stub_fetch w r s = (Ok resp, {| store := st'; calls := calls s ++ [StubCall r] |}).
Proof.
  intros Hup Hrun. unfold Durable.stub_fetch, Durable.object_run. run_m.
  simpl. by rewrite Hup, Hrun.
Qed.

(** C2. In the Durable build a request under [/api/storage] that passes
    the HTTPS gate is handed to the object with the prefix removed, and
    what the object answers is the response, whatever the Authorization
    header holds or lacks. For each operation of the store there is such a
    request, with no Authorization header, that performs it. *)
Theorem storage_route_unauthenticated env w :
  (∀ r, stubFailure w r = None) →
  (∀ request s resp st',
     https_rejected env request = false →
     Str.startsWith (pathname request) "/api/storage" = true →
     let inner := with_pathname request (Str.replace "/api/storage" "" (pathname request)) in
     Storage.fetch (appendTime w) (appendId w) inner (store s) = Ok (resp, st') →
     Durable.fetch env w request s =
       (Ok resp, {| store := st'; calls := calls s ++ [StubCall inner] |})) ∧
  (∀ st : Storage.State,
     let run request :=
       let '(r, s') := Durable.fetch env w request {| store := st; calls := [] |} in
       (r, store s') in
     let anonymous m path params data := https_request m path params ∅ data in
     run (anonymous "GET" "/api/storage/config" [] (Throw SyntaxError)) =
       (Ok (Storage.getConfig st), st) ∧
     (∀ data, run (anonymous "POST" "/api/storage/config" [] (Ok data)) =
        (Ok (Storage.setConfig (appendTime w) data st).1,
         (Storage.setConfig (appendTime w) data st).2)) ∧
     (∀ params,
        let request := anonymous "GET" "/api/storage/logs" params (Throw SyntaxError) in
        run request = (Ok (Storage.getLogs (Storage.limit_of request) st), st)) ∧
     (∀ logData, run (anonymous "POST" "/api/storage/logs" [] (Ok logData)) =
        (Ok (Storage.addLog (appendTime w) (appendId w) logData st).1,
         (Storage.addLog (appendTime w) (appendId w) logData st).2)) ∧
     run (anonymous "DELETE" "/api/storage/logs" [] (Throw SyntaxError)) =
       (Ok (Storage.clearLogs st).1, (Storage.clearLogs st).2) ∧
     run (anonymous "GET" "/api/storage/stats" [] (Throw SyntaxError)) =
       (Ok (Storage.getStats st), st)).
Proof.
  intros Hup. split.
  - intros request s resp st' Hgate Hpre inner Hrun. subst inner.
    rewrite storage_route by done. unfold tryM.
    by rewrite (stub_fetch_run w _ s resp st' (Hup _) Hrun).
  - intros st run anonymous. subst anonymous. cbv beta.
    assert (∀ m path params data resp st',
              Str.startsWith path "/api/storage" = true →
              Storage.fetch (appendTime w) (appendId w)
                (with_pathname (https_request m path params ∅ data)
                   (Str.replace "/api/storage" "" path)) st = Ok (resp, st') →
              run (https_request m path params ∅ data) = (Ok resp, st')) as Hvia.
    { intros m path params data resp st' Hpre Hrun. unfold run.
      rewrite storage_route; [|apply https_request_passes|done].
      change (pathname (https_request m path params ∅ data)) with path.
      unfold tryM.
      by rewrite (stub_fetch_run w _ {| store := st; calls := [] |} resp st' (Hup _) Hrun). }
    repeat split.
    + by apply Hvia.
    + intros data. apply Hvia; [done|].
      transitivity (Ok (Storage.setConfig (appendTime w) data st)); [reflexivity|].
      by destruct (Storage.setConfig (appendTime w) data st).
    + intros params. by apply Hvia.
    + intros logData. apply Hvia; [done|].
      transitivity (Ok (Storage.addLog (appendTime w) (appendId w) logData st));
        [reflexivity|].
      by destruct (Storage.addLog (appendTime w) (appendId w) logData st).
    + by apply Hvia.
    + by apply Hvia.
Qed.

Lemma storage_route_unauthenticated_witness :
  let request := https_request "DELETE" "/api/storage/logs" [] ∅ (Throw SyntaxError) in
  (∀ r, stubFailure Sample.world r = None) ∧
  https_rejected Sample.env request = false ∧
  Durable.fetch Sample.env Sample.world request (Sample.durable Sample.one_log) =
    (Ok (Storage.clearLogs Sample.one_log).1,
     {| store := (Storage.clearLogs Sample.one_log).2;
        calls := [StubCall (with_pathname request "/logs")] |}).
Proof.
  intros request. split; [done|]. split; [reflexivity|].
  apply (proj1 (storage_route_unauthenticated Sample.env Sample.world (λ _, eq_refl))
           request (Sample.durable Sample.one_log)); reflexivity.
Defined.

(** ** Preflight requests *)

Lemma handleOptions_headers request :
  rheaders (handleOptions request) !! "access-control-allow-methods" =
    Some "GET, POST, PUT, DELETE, OPTIONS" ∧
  rheaders (handleOptions request) !! "access-control-allow-origin" = Some "*" ∧
  rheaders (handleOptions request) !! "access-control-allow-headers" =
    Some (default "*" (or_str (headers request !! "access-control-request-headers") None)) ∧
  rheaders (handleOptions request) !! "access-control-max-age" = Some "86400".
Proof. unfold handleOptions; simpl. by repeat split. Qed.

Lemma object_handleOptions_headers request :
  rheaders (Storage.handleOptions request) !! "access-control-allow-methods" =
    Some "GET, POST, PUT, DELETE, OPTIONS" ∧
  rheaders (Storage.handleOptions request) !! "access-control-allow-origin" = Some "*" ∧
  rheaders (Storage.handleOptions request) !! "access-control-allow-headers" =
    Some (default "*" (or_str (headers request !! "access-control-request-headers") None)).
Proof. unfold Storage.handleOptions; simpl. by repeat split. Qed.

Lemma not_admin_prefix p :
  Str.startsWith p "/admin/" = false → String.eqb p "/admin/" = false.
Proof. intros H. apply String.eqb_neq. by intros ->. Qed.

(** C10, as the code has it. An OPTIONS request that passes the HTTPS
    gate and whose path is neither [/admin] nor under [/admin/] gets the
    preflight response: from the router itself when the path is not under
    [/api/storage] (in the in-memory build, always), from the object
    otherwise. The response lists GET, POST, PUT, DELETE and OPTIONS,
    allows every origin, and echoes the requested headers, or "*" when
    none are named. *)
Theorem options_preflight env w request :
  method request = "OPTIONS" →
  https_rejected env request = false →
  pathname request ≠ "/admin" →
  Str.startsWith (pathname request) "/admin/" = false →
  (Str.startsWith (pathname request) "/api/storage" = true →
   stubFailure w (with_pathname request
                    (Str.replace "/api/storage" "" (pathname request))) = None) →
  (∀ s, ∃ resp s',
     Durable.fetch env w request s = (Ok resp, s') ∧ store s' = store s ∧
     rheaders resp !! "access-control-allow-methods" =
       Some "GET, POST, PUT, DELETE, OPTIONS" ∧
     rheaders resp !! "access-control-allow-origin" = Some "*" ∧
     rheaders resp !! "access-control-allow-headers" =
       Some (default "*" (or_str (headers request !! "access-control-request-headers") None)) ∧
     (Str.startsWith (pathname request) "/api/storage" = false →
      resp = handleOptions request ∧ s' = s)) ∧
  (∀ s, Memory.fetch env w request s = (Ok (handleOptions request), s)).
Proof.
  intros Hm Hgate Hadmin Hpre Hup. split.
  - intros s. unfold Durable.fetch. rewrite Hgate. cbv zeta.
    destruct (Str.startsWith (pathname request) "/api/storage") eqn:Hst.
    + unfold Durable.handleStorageRequest, tryM.
      erewrite stub_fetch_run; [| by apply Hup |].
      2:{ unfold Storage.fetch. cbn [method with_pathname]. rewrite Hm. reflexivity. }
      eexists _, _. split; [reflexivity|]. split; [done|].
      destruct (object_handleOptions_headers
                  (with_pathname request
                     (Str.replace "/api/storage" "" (pathname request)))) as (H1 & H2 & H3).
      by repeat split.
    + apply String.eqb_neq in Hadmin as ->. rewrite (not_admin_prefix _ Hpre), Hpre.
      unfold route_public. rewrite Hm. simpl.
      eexists _, _. split; [reflexivity|]. split; [done|].
      destruct (handleOptions_headers request) as (H1 & H2 & H3 & _).
      by repeat split.
  - intros s. unfold Memory.fetch. rewrite Hgate. cbv zeta.
    apply String.eqb_neq in Hadmin as ->. rewrite (not_admin_prefix _ Hpre), Hpre.
    unfold route_public. rewrite Hm. reflexivity.
Qed.

Lemma options_preflight_witness :
  method (Sample.preflight CHAT) = "OPTIONS" ∧
  https_rejected Sample.env (Sample.preflight CHAT) = false ∧
  Memory.fetch Sample.env Sample.world (Sample.preflight CHAT) Sample.memory =
    (Ok (handleOptions (Sample.preflight CHAT)), Sample.memory).
Proof.
  split; [reflexivity|]. split; [reflexivity|].
  apply (proj2 (options_preflight Sample.env Sample.world (Sample.preflight CHAT)
                  eq_refl eq_refl ltac:(discriminate) eq_refl (λ _, eq_refl))).
Defined.

(** C10 as stated fails on the admin paths, which the router serves
    before it looks at the method: with no token the Durable build answers
    an OPTIONS request under [/admin/] with 401 and none of the CORS
    headers, and the in-memory build answers it with 405. *)
Lemma options_admin_counterexample :
  method (Sample.preflight "/admin/config") = "OPTIONS" ∧
  Durable.fetch Sample.env Sample.world (Sample.preflight "/admin/config")
    (Sample.durable Storage.empty) = (Ok unauthorized, Sample.durable Storage.empty) ∧
  rheaders unauthorized !! "access-control-allow-methods" = None ∧
  rheaders unauthorized !! "access-control-allow-origin" = None ∧
  Memory.fetch Sample.env Sample.world (Sample.preflight "/admin/config") Sample.memory =
    (Ok (text_response 405 "Method not allowed"), Sample.memory).
Proof. repeat split. Qed.

(** ** The resolver *)

Lemma stripTrailingSlash_spec s :
  if Str.endsWith_slash s then s = Str.stripTrailingSlash s +:+ "/"
  else Str.stripTrailingSlash s = s.
Proof.
  induction s as [|c s IH]; [done|].
  destruct s as [|c' s'].
  - simpl. destruct (Ascii.eqb_spec c "/") as [->|]; done.
  - change (Str.endsWith_slash (String c (String c' s')))
      with (Str.endsWith_slash (String c' s')).
    change (Str.stripTrailingSlash (String c (String c' s')))
      with (String c (Str.stripTrailingSlash (String c' s'))).
    destruct (Str.endsWith_slash (String c' s')).
    + change (String c (String c' s') =
              String c (Str.stripTrailingSlash (String c' s') +:+ "/")).
      by rewrite <- IH.
    + by rewrite IH.
Qed.

Lemma object_rejects_prefixed_config now id st :
  Storage.fetch now id Durable.config_request st = Ok (text_response 404 "Not found", st).
Proof. reflexivity. Qed.

Lemma object_rejects_prefixed_log now id d st :
  Storage.fetch now id (Durable.log_request d) st = Ok (text_response 404 "Not found", st).
Proof. reflexivity. Qed.

Lemma stored_target_run w (s : Durable.Sys) :
  tryM (Durable.stored_target w) (fun _ => mret None) s =
  (Ok None, {| store := store s; calls := calls s ++ [StubCall Durable.config_request] |}).
Proof.
  unfold Durable.stored_target, Durable.stub_fetch, Durable.object_run. run_m. simpl.
  by destruct (stubFailure w Durable.config_request).
Qed.

Lemma getTargetApiUrl_run env w request (s : Durable.Sys) :
  Durable.getTargetApiUrl env w request s =
  (Ok (header_or_env env request),
   match or_str (headers request !! "x-target-api-url") None with
   | Some _ => s
   | None => {| store := store s; calls := calls s ++ [StubCall Durable.config_request] |}
   end).
Proof.
  unfold Durable.getTargetApiUrl, header_or_env.
  destruct (or_str (headers request !! "x-target-api-url") None); [done|].
  unfold mbind, M_bind. by rewrite stored_target_run.
Qed.

Lemma memory_getTargetApiUrl_run env request (s : Memory.Sys) stored :
  config_target (Memory.config (store s)) = Ok stored →
  Memory.getTargetApiUrl env request s =
  (Ok match or_str (headers request !! "x-target-api-url") None with
      | Some h => Str.stripTrailingSlash h
      | None => default (env_target env) stored
      end, s).
Proof.
  intros H. unfold Memory.getTargetApiUrl.
  destruct (or_str (headers request !! "x-target-api-url") None); [done|].
  run_m. rewrite H. by destruct stored.
Qed.

(** C4 on the Durable build. The resolver asks the object for
    [/api/storage/config]; the object routes on [/config] and answers 404,
    so the stored [targetApiUrl] is never read: the resolution is the
    header when it carries a value and the environment's default
    otherwise. With [https://llm.example.com/] stored and no header, the
    Durable build resolves to [https://api.openai.com]; the in-memory
    build, on the same configuration, resolves to the stored URL. *)
Theorem durable_resolver_skips_stored_target :
  (∀ env w request s,
     (Durable.getTargetApiUrl env w request s).1 = Ok (header_or_env env request)) ∧
  Storage.stored_config Sample.configured !! "targetApiUrl" =
    Some (JStr "https://llm.example.com/") ∧
  (Durable.getTargetApiUrl Sample.env Sample.world (Sample.get CHAT)
     (Sample.durable Sample.configured)).1 = Ok "https://api.openai.com" ∧
  (Memory.getTargetApiUrl Sample.env (Sample.get CHAT)
     {| store := {| Memory.config := Storage.stored_config Sample.configured;
                    Memory.logs := [];
                    Memory.stats := Memory.stats Memory.memoryStorage |};
        calls := [] |}).1 = Ok "https://llm.example.com".
Proof.
  split; [|by repeat split].
  intros env w request s. by rewrite getTargetApiUrl_run.
Qed.

(** ** The forwarding engine *)

Lemma forwardRequest_run {St} env w request targetUrl (s : Sys St) :
  let out := outbound env request targetUrl in
  let sent := {| store := store s; calls := calls s ++ [UpstreamCall out] |} in
  forwardRequest env w request targetUrl s =
  match requestError w out with
  | Some e => (Ok (forward_failure e), s)
  | None =>
      match upstream w out with
      | Throw e => (Ok (forward_failure e), sent)
      | Ok resp =>
          match new_Response w resp with
          | Throw e => (Ok (forward_failure e), sent)
          | Ok r => (Ok (relay r), sent)
          end
      end
  end.
Proof.
  intros out sent. unfold forwardRequest, forward_attempt. run_m. fold out.
  destruct (requestError w out); [done|]. simpl. fold sent.
  destruct (upstream w out) as [resp|e]; [|done]. simpl.
  by destruct (new_Response w resp).
Qed.

Lemma forwardRequest_returns {St} env w request targetUrl (s : Sys St) :
  ∃ r s', forwardRequest env w request targetUrl s = (Ok r, s') ∧
          store s' = store s ∧
          filter is_log_call (calls s') = filter is_log_call (calls s).
Proof.
  rewrite forwardRequest_run.
  assert (filter is_log_call
            (calls s ++ [UpstreamCall (outbound env request targetUrl)]) =
          filter is_log_call (calls s)) as Hsent.
  { rewrite filter_app. apply app_nil_r. }
  destruct (requestError w _); [by eexists _, _|].
  destruct (upstream w _) as [resp|]; [|by eexists _, _].
  destruct (new_Response w resp); by eexists _, _.
Qed.

(** C6. [forwardRequest] returns a response on every input. When
    [new Request] rejects its arguments, when the upstream [fetch] throws,
    or when the upstream answer cannot be rebuilt as a response, the
    result is the 502 response whose body holds "Failed to forward
    request" and the message of the error. *)
Theorem forwardRequest_never_throws {St} env w request targetUrl (s : Sys St) :
  let out := outbound env request targetUrl in
  let sent := {| store := store s; calls := calls s ++ [UpstreamCall out] |} in
  (∃ r s', forwardRequest env w request targetUrl s = (Ok r, s')) ∧
  (∀ e, requestError w out = Some e →
        forwardRequest env w request targetUrl s = (Ok (forward_failure e), s)) ∧
  (∀ e, requestError w out = None → upstream w out = Throw e →
        forwardRequest env w request targetUrl s = (Ok (forward_failure e), sent)) ∧
  (∀ resp e, requestError w out = None → upstream w out = Ok resp →
        new_Response w resp = Throw e →
        forwardRequest env w request targetUrl s = (Ok (forward_failure e), sent)) ∧
  (∀ resp, requestError w out = None → upstream w out = Ok resp →
        new_Response w resp = Ok resp →
        forwardRequest env w request targetUrl s = (Ok (relay resp), sent)) ∧
  (∀ e, status (forward_failure e) = 502%Z ∧
        rbody (forward_failure e) =
          BJson (JObj (<[ "error" := JStr "Failed to forward request" ]>
                       (<[ "message" := JStr (message e) ]> ∅)))).
Proof.
  intros out sent.
  pose proof (forwardRequest_run env w request targetUrl s) as E. cbv zeta in E.
  fold out in E. fold sent in E.
  split; [|split; [|split; [|split; [|split]]]].
  - rewrite E. destruct (requestError w out); [by eexists _, _|].
    destruct (upstream w out) as [resp|]; [|by eexists _, _].
    destruct (new_Response w resp); by eexists _, _.
  - intros e H. by rewrite E, H.
  - intros e H1 H2. by rewrite E, H1, H2.
  - intros resp e H1 H2 H3. by rewrite E, H1, H2, H3.
  - intros resp H1 H2 H3. by rewrite E, H1, H2, H3.
  - done.
Qed.

Lemma forwardRequest_never_throws_witness :
  upstream Sample.offline (outbound Sample.env (Sample.get CHAT) "https://api.openai.com/v1/chat/completions")
    = Throw (Exn "connection refused") ∧
  forwardRequest Sample.env Sample.offline (Sample.get CHAT)
    "https://api.openai.com/v1/chat/completions" Sample.memory =
  (Ok (forward_failure (Exn "connection refused")),
   {| store := Memory.memoryStorage;
      calls := [UpstreamCall (outbound Sample.env (Sample.get CHAT)
                                "https://api.openai.com/v1/chat/completions")] |}).
Proof.
  split; [reflexivity|].
  apply (proj1 (proj2 (proj2 (forwardRequest_never_throws Sample.env Sample.offline
                                (Sample.get CHAT) "https://api.openai.com/v1/chat/completions"
                                Sample.memory)))
           (Exn "connection refused") eq_refl eq_refl).
Defined.

(** ** The endpoint handlers *)

Lemma logRequest_run w d (s : Durable.Sys) :
  Durable.logRequest w d s =
  (Ok tt, {| store := store s; calls := calls s ++ [StubCall (Durable.log_request d)] |}).
Proof.
  unfold Durable.logRequest, Durable.stub_fetch, Durable.object_run. run_m. simpl.
  by destruct (stubFailure w (Durable.log_request d)).
Qed.

(** The in-memory build: a handler on a configuration the resolver can
    read. *)
Lemma memory_handler_run env w name request (s : Memory.Sys) :
  readable (Memory.config (store s)) = true →
  let target := Str.stripTrailingSlash (resolver_choice env request (Memory.config (store s))) in
  ∃ r s2,
    forwardRequest env w request (target +:+ name) s = (Ok r, s2) ∧
    store s2 = store s ∧
    handleWith w (Memory.getTargetApiUrl env) (forwardRequest env w) (Memory.logRequest w)
      name request s =
    (Ok r, (Memory.logRequest w {| endpoint := name;
                                   targetApi := target;
                                   log_status := status r;
                                   duration := (endTime w - startTime w)%Z;
                                   timestamp := isoTime w;
                                   error := None |} s2).2).
Proof.
  intros Hr target.
  assert (Memory.getTargetApiUrl env request s = (Ok target, s)) as Ht.
  { unfold readable in Hr. destruct (config_target (Memory.config (store s))) as [stored|] eqn:E;
      [|done].
    rewrite (memory_getTargetApiUrl_run env request s stored E).
    unfold target, resolver_choice, env_target. do 2 f_equal.
    destruct (or_str (headers request !! "x-target-api-url") None); [done|].
    unfold config_target in E.
    destruct (Memory.config (store s) !! "targetApiUrl") as [[| | |u| |]|];
      simplify_eq/=; try done.
    - by destruct b; simplify_eq/=.
    - by destruct (n =? 0)%Z; simplify_eq/=.
    - by destruct (String.eqb u ""); simplify_eq/=. }
  destruct (forwardRequest_returns env w request (target +:+ name) s) as (r & s2 & Hf & Hst & _).
  exists r, s2. split; [done|]. split; [done|].
  unfold handleWith. run_m. by rewrite Ht, Hf.
Qed.

(** C7 on the code. In the Durable build a handler returns the response
    of [forwardRequest], never throws, so that the record with status 500
    of its [catch] is not written, and sends the object one record with
    the endpoint, the resolved target, the status of the response, the
    difference of the two clock readings and the time stamp, whether or
    not that call fails. The record is sent to [/api/storage/logs], which
    the object answers 404 "Not found" without running [addLog]: the
    stored log is after the invocation what it was before. The in-memory
    build, on a configuration its resolver can read, appends exactly one
    entry built from such a record. *)
Theorem handler_record_is_not_appended env w name request (s : Durable.Sys) :
  let record target st :=
    {| endpoint := name;
       targetApi := target;
       log_status := st;
       duration := (endTime w - startTime w)%Z;
       timestamp := isoTime w;
       error := None |} in
  (Durable.handleChatCompletion env w =
     handleWith w (Durable.getTargetApiUrl env w) (forwardRequest env w)
       (Durable.logRequest w) CHAT ∧
   Durable.handleCompletions env w =
     handleWith w (Durable.getTargetApiUrl env w) (forwardRequest env w)
       (Durable.logRequest w) COMPLETIONS ∧
   Durable.handleEmbeddings env w =
     handleWith w (Durable.getTargetApiUrl env w) (forwardRequest env w)
       (Durable.logRequest w) EMBEDDINGS) ∧
  (let target := header_or_env env request in
   ∃ r s2,
     forwardRequest env w request (target +:+ name)
       (Durable.getTargetApiUrl env w request s).2 = (Ok r, s2) ∧
     handleWith w (Durable.getTargetApiUrl env w) (forwardRequest env w)
       (Durable.logRequest w) name request s =
       (Ok r, {| store := store s;
                 calls := calls s2 ++ [StubCall (Durable.log_request (record target (status r)))] |}) ∧
     ∀ now id st,
       Storage.fetch now id (Durable.log_request (record target (status r))) st =
         Ok (text_response 404 "Not found", st)) ∧
  (∀ m : Memory.Sys,
     readable (Memory.config (store m)) = true →
     let target := Str.stripTrailingSlash (resolver_choice env request (Memory.config (store m))) in
     ∃ r m2 m',
       forwardRequest env w request (target +:+ name) m = (Ok r, m2) ∧
       handleWith w (Memory.getTargetApiUrl env) (forwardRequest env w) (Memory.logRequest w)
         name request m = (Ok r, m') ∧
       Memory.logs (store m') =
         pushLog (Storage.newLog (appendTime w) (appendId w)
                    (LogData_obj (record target (status r))))
                 (Memory.logs (store m))).
Proof.
  intros record. split; [done|]. split.
  - intros target.
    destruct (forwardRequest_returns env w request (target +:+ name)
                (Durable.getTargetApiUrl env w request s).2) as (r & s2 & Hf & Hst & _).
    exists r, s2. split; [exact Hf|]. split; [|intros; apply object_rejects_prefixed_log].
    unfold handleWith. run_m. rewrite getTargetApiUrl_run in *. simpl in Hf, Hst.
    fold target. rewrite Hf, logRequest_run. simpl. rewrite Hst.
    by destruct (or_str (headers request !! "x-target-api-url") None).
  - intros m Hr target.
    destruct (memory_handler_run env w name request m Hr) as (r & m2 & Hf & Hst & Hrun).
    eexists r, m2, _. split; [exact Hf|]. split; [exact Hrun|].
    simpl. by rewrite Hst.
Qed.

Lemma handler_record_is_not_appended_witness :
  let request := Case.post CHAT (Ok ∅) in
  (∃ r s',
     Durable.handleChatCompletion Sample.env Sample.world request
       (Sample.durable Sample.one_log) = (Ok r, s') ∧
     status r = 200%Z ∧
     store s' = Sample.one_log ∧
     last (calls s') =
       Some (StubCall (Durable.log_request
                         {| endpoint := CHAT;
                            targetApi := DEFAULT_TARGET;
                            log_status := 200;
                            duration := 42;
                            timestamp := isoTime Sample.world;
                            error := None |}))) ∧
  (readable (Memory.config (store Sample.memory)) = true ∧
   ∃ r m',
     Memory.handleChatCompletion Sample.env Sample.world request Sample.memory = (Ok r, m') ∧
     status r = 200%Z ∧
     length (Memory.logs (store m')) = 1).
Proof.
  intros request.
  pose proof (handler_record_is_not_appended Sample.env Sample.world CHAT request
                (Sample.durable Sample.one_log)) as (_ & Hd & Hm).
  split.
  - destruct Hd as (r & s2 & Hf & Hrun & _).
    eexists r, _. split; [exact Hrun|].
    vm_compute in Hf. injection Hf as <- <-. repeat split.
  - split; [reflexivity|].
    destruct (Hm Sample.memory eq_refl) as (r & m2 & m' & Hf & Hrun & Hlogs).
    exists r, m'. split; [exact Hrun|].
    vm_compute in Hf. injection Hf as <- _. split; [reflexivity|].
    rewrite Hlogs. reflexivity.
Defined.

(** The upstream server out of reach and the object failing: the
    response is the 502 of [forwardRequest], the record sent carries 502,
    and the stored log is unchanged. *)
Example durable_handler_offline :
  let request := Case.post CHAT (Ok ∅) in
  ∃ r s',
    Durable.fetch Sample.env Sample.offline request (Sample.durable Sample.one_log) = (Ok r, s') ∧
    r = forward_failure (Exn "connection refused") ∧
    store s' = Sample.one_log ∧
    last (calls s') =
      Some (StubCall (Durable.log_request
                        {| endpoint := CHAT;
                           targetApi := DEFAULT_TARGET;
                           log_status := 502;
                           duration := 42;
                           timestamp := isoTime Sample.offline;
                           error := None |})).
Proof. eexists _, _. split; [vm_compute; reflexivity|]. repeat split. Qed.

(** The same request in the in-memory build: one entry, with status 502. *)
Example memory_handler_offline :
  let request := Case.post CHAT (Ok ∅) in
  ∃ r m',
    Memory.fetch Sample.env Sample.offline request Sample.memory = (Ok r, m') ∧
    r = forward_failure (Exn "connection refused") ∧
    (λ e, e !! "status") <$> Memory.logs (store m') = [Some (JNum 502)].
Proof. eexists _, _. split; [vm_compute; reflexivity|]. split; reflexivity. Qed.

(** * Further properties of the stores *)

(** X1. An update whose [targetApiUrl] or [adminPassword] is truthy and
    not a string is answered 400 by the Durable Object and by the
    in-memory handler, and neither store changes. *)
Theorem setConfig_rejects_nonstring now w request data st (s : Memory.Sys) :
  field_rejected data "targetApiUrl" || field_rejected data "adminPassword" = true →
  method request = "POST" →
  json request = Ok data →
  (∃ msg, Storage.handleConfig now request st = Ok (json_response 400 (error_body msg), st)) ∧
  (∃ msg, Memory.handleConfig w request s = (Ok (json_response 400 (error_body msg)), s)).
Proof.
  unfold field_rejected. intros H Hm Hj. split.
  - unfold Storage.handleConfig, Storage.setConfig. rewrite Hm, Hj. simpl.
    destruct (truthy_prop (data !! "targetApiUrl")
              && negb (from_option is_string false (data !! "targetApiUrl")));
      [by eexists|].
    simpl in H. rewrite H. by eexists.
  - unfold Memory.handleConfig. rewrite Hm, Hj. run_m. simpl.
    destruct (truthy_prop (data !! "targetApiUrl")
              && negb (from_option is_string false (data !! "targetApiUrl")));
      [by eexists|].
    simpl in H. rewrite H. by eexists.
Qed.

Lemma setConfig_rejects_nonstring_witness :
  field_rejected Case.bad_url "targetApiUrl" || field_rejected Case.bad_url "adminPassword" = true ∧
  (∃ msg, Storage.handleConfig "t" (Case.post "/config" (Ok Case.bad_url)) Sample.configured =
            Ok (json_response 400 (error_body msg), Sample.configured)) ∧
  (∃ msg, Memory.handleConfig Sample.world (Case.post "/config" (Ok Case.bad_url))
            Sample.memory = (Ok (json_response 400 (error_body msg)), Sample.memory)).
Proof.
  split; [reflexivity|].
  exact (setConfig_rejects_nonstring "t" Sample.world (Case.post "/config" (Ok Case.bad_url))
           Case.bad_url Sample.configured Sample.memory eq_refl eq_refl eq_refl).
Defined.

(** X2. An update that passes the validation is merged: the answer and
    the stored record are the same object, in which [updatedAt] is the
    server's time (also when the update names one), every other field of
    the update has the submitted value, and every field the update does
    not name keeps the value it had. The in-memory handler builds the
    same record. *)
Theorem setConfig_merge now w request data st (s : Memory.Sys) :
  field_rejected data "targetApiUrl" || field_rejected data "adminPassword" = false →
  method request = "POST" →
  json request = Ok data →
  isoTime w = now →
  Memory.config (store s) = Storage.stored_config st →
  ∃ merged : jsobj,
    Storage.setConfig now data st =
      (json_response 200 (JObj merged),
       {| Storage.config := Some merged; Storage.logs := Storage.logs st |}) ∧
    Storage.getConfig (Storage.setConfig now data st).2 = json_response 200 (JObj merged) ∧
    Memory.handleConfig w request s =
      (Ok (json_response 200 (JObj merged)),
       {| store := {| Memory.config := merged;
                      Memory.logs := Memory.logs (store s);
                      Memory.stats := Memory.stats (store s) |};
          calls := calls s |}) ∧
    merged !! "updatedAt" = Some (JStr now) ∧
    (∀ k v, k ≠ "updatedAt" → data !! k = Some v → merged !! k = Some v) ∧
    (∀ k, k ≠ "updatedAt" → data !! k = None →
          merged !! k = Storage.stored_config st !! k).
Proof.
  intros Hok Hm Hj Hnow Hcfg.
  destruct (setConfig_merges now data st Hok) as (E & Hstamp & Hin & Hout).
  eexists. split; [exact E|]. split; [by rewrite E|]. split; [|by repeat split].
  unfold Memory.handleConfig. rewrite Hm, Hj. run_m. simpl.
  unfold field_rejected in Hok. apply orb_false_elim in Hok as [H1 H2].
  by rewrite H1, H2, Hnow, Hcfg.
Qed.

Lemma setConfig_merge_witness :
  ∃ merged : jsobj,
    Storage.setConfig (isoTime Sample.world) Case.new_password Sample.configured =
      (json_response 200 (JObj merged),
       {| Storage.config := Some merged; Storage.logs := None |}) ∧
    merged !! "targetApiUrl" = Some (JStr "https://llm.example.com/") ∧
    merged !! "adminPassword" = Some (JStr "hunter2").
Proof.
  destruct (setConfig_merge (isoTime Sample.world) Sample.world
              (Case.post "/config" (Ok Case.new_password)) Case.new_password
              Sample.configured
              {| store := {| Memory.config := Storage.stored_config Sample.configured;
                             Memory.logs := [];
                             Memory.stats := Memory.stats Memory.memoryStorage |};
                 calls := [] |} eq_refl eq_refl eq_refl eq_refl eq_refl)
    as (merged & E & _ & _ & _ & Hin & Hout).
  exists merged. split; [exact E|]. split.
  - rewrite (Hout "targetApiUrl"); [reflexivity|discriminate|reflexivity].
  - apply Hin; [discriminate|reflexivity].
Defined.

(** X3. Two accepted updates in a row: a field holds the value of the
    second update if that names it, else the value of the first if that
    names it, else the value it had before; [updatedAt] is the time of the
    second update. *)
Theorem setConfig_twice now1 now2 a b st :
  field_rejected a "targetApiUrl" || field_rejected a "adminPassword" = false →
  field_rejected b "targetApiUrl" || field_rejected b "adminPassword" = false →
  let final :=
    Storage.stored_config (Storage.setConfig now2 b (Storage.setConfig now1 a st).2).2 in
  final !! "updatedAt" = Some (JStr now2) ∧
  ∀ k, k ≠ "updatedAt" →
       final !! k =
       match b !! k with
       | Some v => Some v
       | None => match a !! k with
                 | Some v => Some v
                 | None => Storage.stored_config st !! k
                 end
       end.
Proof.
  intros Ha Hb final.
  destruct (setConfig_merges now1 a st Ha) as (E1 & _ & Hin1 & Hout1).
  destruct (setConfig_merges now2 b (Storage.setConfig now1 a st).2 Hb)
    as (E2 & Hstamp & Hin2 & Hout2).
  assert (final = <[ "updatedAt" := JStr now2 ]>
                    (spread (Storage.stored_config (Storage.setConfig now1 a st).2) b)) as ->.
  { unfold final. by rewrite E2. }
  split; [exact Hstamp|]. intros k Hk.
  destruct (b !! k) as [v|] eqn:Eb; [by apply Hin2|].
  rewrite (Hout2 k Hk Eb).
  assert (Storage.stored_config (Storage.setConfig now1 a st).2 =
          <[ "updatedAt" := JStr now1 ]> (spread (Storage.stored_config st) a)) as ->.
  { by rewrite E1. }
  destruct (a !! k) as [v|] eqn:Ea; [by apply Hin1|]. by apply Hout1.
Qed.

Lemma setConfig_twice_witness :
  let final :=
    Storage.stored_config
      (Storage.setConfig "t2" Case.new_password
         (Storage.setConfig "t1" Case.new_url Storage.empty).2).2 in
  final !! "updatedAt" = Some (JStr "t2") ∧
  final !! "targetApiUrl" = Some (JStr "https://llm.example.com") ∧
  final !! "adminPassword" = Some (JStr "hunter2").
Proof.
  intros final.
  destruct (setConfig_twice "t1" "t2" Case.new_url Case.new_password Storage.empty
              eq_refl eq_refl) as [Hstamp Hk].
  split; [exact Hstamp|]. split.
  - exact (Hk "targetApiUrl" ltac:(discriminate)).
  - exact (Hk "adminPassword" ltac:(discriminate)).
Defined.

Lemma pushLog_snoc {A} (e : A) (l : list A) :
  ∃ k, pushLog e l = k ++ [e] ∧ k `suffix_of` l.
Proof.
  rewrite pushLog_lastn. unfold lastn. rewrite length_app. simpl.
  destruct (decide (length l + 1 - LOG_CAP ≤ length l)) as [Hle|Hgt].
  - exists (drop (length l + 1 - LOG_CAP) l). split.
    + by rewrite drop_app_le.
    + apply suffix_drop.
  - unfold LOG_CAP in *. lia.
Qed.

Lemma slice_last {A} (k : list A) (e : A) : slice (-1) (k ++ [e]) = [e].
Proof.
  unfold slice. rewrite length_app. simpl.
  replace (Z.to_nat (Z.max (Z.of_nat (length k + 1) + -1) 0)) with (length k) by lia.
  by rewrite drop_app_length.
Qed.

(** X4. A log record whose [endpoint] or [timestamp] is missing or falsy
    is answered 400 by the Durable Object and by the in-memory handler,
    and neither log changes. *)
Theorem addLog_requires_fields now id w request logData st (s : Memory.Sys) :
  truthy_prop (logData !! "endpoint") && truthy_prop (logData !! "timestamp") = false →
  method request = "POST" →
  json request = Ok logData →
  Storage.handleLogs now id request st =
    Ok (json_response 400 (error_body "Missing required fields"), st) ∧
  Memory.handleLogs w request s =
    (Ok (json_response 400 (error_body "Missing required fields")), s).
Proof.
  intros H Hm Hj.
  assert (negb (truthy_prop (logData !! "endpoint"))
          || negb (truthy_prop (logData !! "timestamp")) = true) as Hv.
  { by destruct (truthy_prop (logData !! "endpoint")),
                (truthy_prop (logData !! "timestamp")). }
  split.
  - unfold Storage.handleLogs, Storage.addLog. rewrite Hm, Hj. simpl. by rewrite Hv.
  - unfold Memory.handleLogs. rewrite Hm, Hj. run_m. simpl. by rewrite Hv.
Qed.

Lemma addLog_requires_fields_witness :
  Storage.handleLogs "t" "i" (Case.post "/logs" (Ok {[ "endpoint" := JStr CHAT ]}))
    Sample.one_log =
    Ok (json_response 400 (error_body "Missing required fields"), Sample.one_log) ∧
  Memory.handleLogs Sample.world (Case.post "/logs" (Ok {[ "endpoint" := JStr CHAT ]}))
    Sample.memory =
    (Ok (json_response 400 (error_body "Missing required fields")), Sample.memory).
Proof.
  exact (addLog_requires_fields "t" "i" Sample.world
           (Case.post "/logs" (Ok {[ "endpoint" := JStr CHAT ]}))
           {[ "endpoint" := JStr CHAT ]} Sample.one_log Sample.memory
           eq_refl eq_refl eq_refl).
Defined.

(** X5. An accepted record comes back from [getLogs(1)] as the entry
    [addLog] answered with. That entry carries the server's time in place
    of the submitted [timestamp], the submitted [id] when there is one and
    the generated id otherwise, and every other submitted field as it
    was. *)
Theorem addLog_then_getLogs now id logData st :
  truthy_prop (logData !! "endpoint") && truthy_prop (logData !! "timestamp") = true →
  let entry := Storage.newLog now id logData in
  (Storage.addLog now id logData st).1 = json_response 200 (JObj entry) ∧
  Storage.getLogs 1 (Storage.addLog now id logData st).2 =
    json_response 200 (JArr [JObj entry]) ∧
  entry !! "timestamp" = Some (JStr now) ∧
  entry !! "id" = Some (default (JStr id) (logData !! "id")) ∧
  (∀ k, k ≠ "timestamp" → k ≠ "id" → entry !! k = logData !! k).
Proof.
  intros H entry. apply andb_true_iff in H as [H1 H2].
  assert (Storage.addLog now id logData st =
          (json_response 200 (JObj entry),
           {| Storage.config := Storage.config st;
              Storage.logs := Some (pushLog entry (Storage.stored_logs st)) |})) as E.
  { unfold Storage.addLog. by rewrite H1, H2. }
  rewrite E. split; [done|]. split; [|split; [|split]].
  - unfold Storage.getLogs.
    change (Storage.stored_logs (_, {| Storage.config := Storage.config st;
              Storage.logs := Some (pushLog entry (Storage.stored_logs st)) |}).2)
      with (pushLog entry (Storage.stored_logs st)).
    destruct (pushLog_snoc entry (Storage.stored_logs st)) as (k & -> & _).
    by rewrite slice_last.
  - apply lookup_insert_eq.
  - unfold entry, Storage.newLog, spread. rewrite lookup_insert_ne by done.
    rewrite lookup_union. rewrite lookup_singleton_eq.
    by destruct (logData !! "id").
  - intros k Hk1 Hk2. unfold entry, Storage.newLog, spread.
    rewrite lookup_insert_ne by done. rewrite lookup_union.
    rewrite lookup_singleton_ne by done. by destruct (logData !! k).
Qed.

Lemma addLog_then_getLogs_witness :
  let entry := Storage.newLog "2024-05-01T10:00:09.000Z" "lvo1k2m3fffff" Case.submitted in
  Storage.getLogs 1
    (Storage.addLog "2024-05-01T10:00:09.000Z" "lvo1k2m3fffff" Case.submitted Sample.one_log).2 =
    json_response 200 (JArr [JObj entry]) ∧
  entry !! "timestamp" = Some (JStr "2024-05-01T10:00:09.000Z") ∧
  entry !! "id" = Some (JStr "mine").
Proof.
  intros entry.
  destruct (addLog_then_getLogs "2024-05-01T10:00:09.000Z" "lvo1k2m3fffff" Case.submitted
              Sample.one_log eq_refl) as (_ & Hget & Hts & Hid & _).
  split; [exact Hget|]. split; [exact Hts|exact Hid].
Defined.

(** X6. Clearing empties the log and leaves the configuration alone;
    clearing again changes nothing more; afterwards [getLogs] answers with
    the empty array for every limit and the object's statistics report no
    request. The in-memory DELETE empties the log and keeps the
    configuration and the counters. *)
Theorem clearLogs_resets w request st limit (s : Memory.Sys) :
  method request = "DELETE" →
  let st' := (Storage.clearLogs st).2 in
  Storage.handleLogs "" "" request st = Ok (Storage.clearLogs st) ∧
  Storage.stored_logs st' = [] ∧
  Storage.config st' = Storage.config st ∧
  Storage.clearLogs st' = Storage.clearLogs st ∧
  Storage.getLogs limit st' = json_response 200 (JArr []) ∧
  reported_total (Ok (Storage.getStats st')) = Some 0%Z ∧
  Memory.handleLogs w request s =
    (Ok (Storage.clearLogs st).1,
     {| store := {| Memory.config := Memory.config (store s);
                    Memory.logs := [];
                    Memory.stats := Memory.stats (store s) |};
        calls := calls s |}).
Proof.
  intros Hm st'. split; [|split; [|split; [|split; [|split; [|split]]]]]; try done.
  - unfold Storage.handleLogs. by rewrite Hm.
  - unfold Storage.getLogs, slice.
    change (Storage.stored_logs st') with (@nil jsobj). by rewrite drop_nil.
  - unfold Memory.handleLogs. by rewrite Hm.
Qed.

Lemma clearLogs_resets_witness :
  Storage.handleLogs "" "" (https_request "DELETE" "/logs" [] ∅ (Throw SyntaxError))
    Sample.one_log = Ok (Storage.clearLogs Sample.one_log) ∧
  Storage.getLogs 50 (Storage.clearLogs Sample.one_log).2 = json_response 200 (JArr []).
Proof.
  destruct (clearLogs_resets Sample.world
              (https_request "DELETE" "/logs" [] ∅ (Throw SyntaxError))
              Sample.one_log 50 Sample.memory eq_refl) as (H1 & _ & _ & _ & H2 & _).
  split; [exact H1|exact H2].
Defined.

Lemma logRequest_counters w d (s : Memory.Sys) :
  let s' := (Memory.logRequest w d s).2 in
  Memory.c_totalRequests (Memory.stats (store s')) =
    (Memory.c_totalRequests (Memory.stats (store s)) + 1)%Z ∧
  Memory.c_successfulRequests (Memory.stats (store s')) =
    (Memory.c_successfulRequests (Memory.stats (store s)) + (if is_2xx d then 1 else 0))%Z ∧
  Memory.c_totalDuration (Memory.stats (store s')) =
    (Memory.c_totalDuration (Memory.stats (store s)) + duration d)%Z ∧
  Memory.config (store s') = Memory.config (store s) ∧
  calls s' = calls s.
Proof.
  simpl. repeat split. unfold is_2xx.
  destruct ((200 <=? log_status d)%Z && (log_status d <? 300)%Z); lia.
Qed.

(** X7. The counters of the in-memory build after any sequence of
    [logRequest] calls: the total has grown by the number of calls (it is
    not capped, unlike the log), the success counter by the number of
    calls whose status is in 200..299, the duration counter by the sum of
    the durations; the configuration is as it was. *)
Theorem memory_counters_accumulate calls : ∀ s : Memory.Sys,
  let s' := Memory.logAll calls s in
  Memory.c_totalRequests (Memory.stats (store s')) =
    (Memory.c_totalRequests (Memory.stats (store s)) + Z.of_nat (length calls))%Z ∧
  Memory.c_successfulRequests (Memory.stats (store s')) =
    (Memory.c_successfulRequests (Memory.stats (store s)) + successes calls)%Z ∧
  Memory.c_totalDuration (Memory.stats (store s')) =
    (Memory.c_totalDuration (Memory.stats (store s)) + total_duration calls)%Z ∧
  Memory.config (store s') = Memory.config (store s).
Proof.
  induction calls as [|[w d] rest IH]; intros s.
  - unfold successes. simpl. repeat split; lia.
  - change (Memory.logAll ((w, d) :: rest) s)
      with (Memory.logAll rest (Memory.logRequest w d s).2).
    destruct (IH (Memory.logRequest w d s).2) as (H1 & H2 & H3 & H4).
    destruct (logRequest_counters w d s) as (E1 & E2 & E3 & E4 & _).
    cbv zeta in *. rewrite H1, H2, H3, H4, E1, E2, E3, E4.
    assert (successes ((w, d) :: rest) = ((if is_2xx d then 1 else 0) + successes rest)%Z) as ->.
    { unfold successes. rewrite filter_cons. simpl.
      destruct (is_2xx d); simpl; [|done].
      destruct (decide (Is_true true)) as [_|n]; [simpl; lia|by destruct n]. }
    change (total_duration ((w, d) :: rest)) with (duration d + total_duration rest)%Z.
    rewrite length_cons. repeat split; lia.
Qed.

(** X8. The total the Durable Object reports after any sequence of
    [addLog] calls on a log within the cap is the number of entries it had
    plus the number of accepted calls, capped at 1000. *)
Theorem durable_total_is_capped calls st :
  length (Storage.stored_logs st) ≤ LOG_CAP →
  reported_total (Ok (Storage.getStats (Storage.appendAll calls st))) =
    Some (Z.of_nat (LOG_CAP `min`
                    (length (Storage.stored_logs st) + length (filter Storage.accepted calls)))).
Proof.
  intros Hlen. rewrite getStats_total.
  rewrite (appendAll_window calls (Storage.stored_logs st) st) by (by rewrite lastn_all).
  rewrite lastn_length, length_app. unfold Storage.created. by rewrite length_fmap.
Qed.

Lemma durable_total_is_capped_witness :
  reported_total
    (Ok (Storage.getStats
           (Storage.appendAll (Sample.incomplete :: Sample.burst 3) Sample.one_log))) =
  Some 4%Z.
Proof.
  assert (length (Storage.stored_logs Sample.one_log) ≤ LOG_CAP) as H
    by (unfold LOG_CAP; simpl; lia).
  exact (durable_total_is_capped (Sample.incomplete :: Sample.burst 3) Sample.one_log H).
Defined.

(** X9. The Durable Object changes its configuration only on a POST to a
    path starting with [/config], and its log only on a POST or DELETE to a
    path starting with [/logs]; every other request leaves the storage as
    it was. *)
Theorem object_changes_only_on_writes now id request st r st' :
  Storage.fetch now id request st = Ok (r, st') →
  (Storage.config st' = Storage.config st ∨
   (method request = "POST" ∧ Str.startsWith (pathname request) "/config" = true)) ∧
  (Storage.logs st' = Storage.logs st ∨
   ((method request = "POST" ∨ method request = "DELETE") ∧
    Str.startsWith (pathname request) "/logs" = true)) ∧
  (method request ≠ "POST" → method request ≠ "DELETE" → st' = st).
Proof.
  unfold Storage.fetch.
  destruct (String.eqb_spec (method request) "OPTIONS") as [Ho|_].
  { intros [= <- <-]. rewrite Ho. repeat split; by left. }
  destruct (Str.startsWith (pathname request) "/config") eqn:Hc.
  { unfold Storage.handleConfig.
    destruct (String.eqb_spec (method request) "GET") as [Hg|_].
    { intros [= <- <-]. rewrite Hg. repeat split; by left. }
    destruct (String.eqb_spec (method request) "POST") as [Hp|Hnp].
    - destruct (json request) as [data|e]; [|done]. simpl. intros [= E].
      assert ((Storage.setConfig now data st).2 = st') as <- by (by rewrite E).
      split; [by right|]. split; [|done]. left.
      unfold Storage.setConfig.
      by destruct (_ && _); [|destruct (_ && _)].
    - intros [= <- <-]. repeat split; by left. }
  destruct (Str.startsWith (pathname request) "/logs") eqn:Hl.
  { unfold Storage.handleLogs.
    destruct (String.eqb_spec (method request) "GET") as [Hg|_].
    { intros [= <- <-]. rewrite Hg. repeat split; by left. }
    destruct (String.eqb_spec (method request) "POST") as [Hp|Hnp].
    - destruct (json request) as [data|e]; [|done]. simpl. intros [= E].
      assert ((Storage.addLog now id data st).2 = st') as <- by (by rewrite E).
      split; [|split; [by right; split; [left|]|done]]. left.
      unfold Storage.addLog. by destruct (_ || _).
    - destruct (String.eqb_spec (method request) "DELETE") as [Hd|Hnd].
      + intros [= <- <-]. split; [by left|]. split; [|done]. right. split; [by right|done].
      + intros [= <- <-]. repeat split; by left. }
  destruct (Str.startsWith (pathname request) "/stats") eqn:Hs.
  { unfold Storage.handleStats.
    destruct (String.eqb (method request) "GET"); intros [= <- <-]; repeat split; by left. }
  intros [= <- <-]. repeat split; by left.
Qed.

Lemma object_changes_only_on_writes_witness :
  Storage.fetch "t" "i" (Sample.with_limit "5") Sample.one_log =
    Ok (Storage.getLogs 5 Sample.one_log, Sample.one_log) ∧
  (method (Sample.with_limit "5") ≠ "POST" → method (Sample.with_limit "5") ≠ "DELETE" →
   Sample.one_log = Sample.one_log).
Proof.
  split; [reflexivity|].
  exact (proj2 (proj2 (object_changes_only_on_writes "t" "i" (Sample.with_limit "5")
                         Sample.one_log _ Sample.one_log eq_refl))).
Defined.

(** * Further properties of the worker *)

Lemma startsWith_app p t : Str.startsWith (p +:+ t) p = true.
Proof.
  induction p as [|c p IH]; [by destruct t|].
  simpl. rewrite IH. by rewrite Ascii.eqb_refl.
Qed.

Lemma drop_app p t : Str.drop (String.length p) (p +:+ t) = t.
Proof. induction p as [|c p IH]; [by destruct t|done]. Qed.

Lemma replace_unfold pat rep s :
  Str.replace pat rep s =
  if Str.startsWith s pat then rep +:+ Str.drop (String.length pat) s
  else match s with
       | EmptyString => EmptyString
       | String c s' => String c (Str.replace pat rep s')
       end.
Proof. by destruct s. Qed.

Lemma replace_prefix p t : Str.replace p "" (p +:+ t) = t.
Proof. by rewrite replace_unfold, startsWith_app, drop_app. Qed.

(** X10. In a production deployment every request that does not come
    over https is answered 403 before anything else is looked at: no
    route, method or header changes the answer, the store is untouched and
    no call is issued. Outside production the gate lets every request
    through. *)
Theorem https_gate env w request :
  (ENVIRONMENT env = Some "production" → protocol request ≠ "https:" →
   (∀ s, Durable.fetch env w request s = (Ok (text_response 403 "Please use HTTPS"), s)) ∧
   (∀ s, Memory.fetch env w request s = (Ok (text_response 403 "Please use HTTPS"), s))) ∧
  (ENVIRONMENT env ≠ Some "production" → https_rejected env request = false) ∧
  (protocol request = "https:" → https_rejected env request = false).
Proof.
  split; [|split].
  - intros He Hp.
    assert (https_rejected env request = true) as Hg.
    { unfold https_rejected. rewrite He. simpl. by apply String.eqb_neq in Hp as ->. }
    split; intros s.
    + unfold Durable.fetch. by rewrite Hg.
    + unfold Memory.fetch. by rewrite Hg.
  - intros He. unfold https_rejected. destruct (ENVIRONMENT env) as [e|]; [|done].
    destruct (String.eqb_spec e "production") as [->|]; done.
  - intros Hp. unfold https_rejected. destruct (ENVIRONMENT env); [|done].
    rewrite Hp. simpl. apply andb_false_r.
Qed.

Lemma https_gate_witness :
  let request := {| method := "GET"; protocol := "http:"; pathname := "/health";
                    searchParams := []; headers := ∅; body := BNull;
                    json := Throw SyntaxError |} in
  Durable.fetch Sample.env Sample.world request (Sample.durable Sample.one_log) =
    (Ok (text_response 403 "Please use HTTPS"), Sample.durable Sample.one_log).
Proof.
  intros request.
  exact (proj1 (proj1 (https_gate Sample.env Sample.world request) eq_refl
                  ltac:(discriminate)) (Sample.durable Sample.one_log)).
Defined.

Lemma public_route env w request (s : Durable.Sys) (m : Memory.Sys) :
  https_rejected env request = false →
  Str.startsWith (pathname request) "/api/storage" = false →
  pathname request ≠ "/admin" →
  Str.startsWith (pathname request) "/admin/" = false →
  Durable.fetch env w request s =
    tryM (route_public (Durable.handleChatCompletion env w) (Durable.handleCompletions env w)
            (Durable.handleEmbeddings env w) request)
         (fun e => mret (internal_error e)) s ∧
  Memory.fetch env w request m =
    tryM (route_public (Memory.handleChatCompletion env w) (Memory.handleCompletions env w)
            (Memory.handleEmbeddings env w) request)
         (fun e => mret (internal_error e)) m.
Proof.
  intros Hg Hst Ha Hp. apply String.eqb_neq in Ha.
  split.
  - unfold Durable.fetch. rewrite Hg. cbv zeta. by rewrite Hst, Ha, (not_admin_prefix _ Hp), Hp.
  - unfold Memory.fetch. rewrite Hg. cbv zeta. by rewrite Ha, (not_admin_prefix _ Hp), Hp.
Qed.

(** X11. Outside the admin and storage routes, for a request that passes
    the gate: a method other than GET, POST and OPTIONS is answered 405; a
    GET is answered with the health record on [/] and [/health] and with
    404 on every other path, the three endpoint paths included; a POST to
    a path that is not one of the three endpoints is answered 404. None of
    these touches the store or issues a call, in either build. *)
Theorem public_routes env w request (s : Durable.Sys) (m : Memory.Sys) :
  https_rejected env request = false →
  Str.startsWith (pathname request) "/api/storage" = false →
  pathname request ≠ "/admin" →
  Str.startsWith (pathname request) "/admin/" = false →
  method request ≠ "OPTIONS" →
  let both r :=
    Durable.fetch env w request s = (Ok r, s) ∧ Memory.fetch env w request m = (Ok r, m) in
  (method request ≠ "POST" → method request ≠ "GET" →
   both (json_response 405 (error_body "Method not allowed"))) ∧
  (method request = "GET" →
   both (if String.eqb (pathname request) "/" || String.eqb (pathname request) "/health"
         then health else json_response 404 (error_body "Not found"))) ∧
  (method request = "POST" →
   pathname request ≠ CHAT → pathname request ≠ COMPLETIONS → pathname request ≠ EMBEDDINGS →
   both (json_response 404 (error_body "Endpoint not found"))).
Proof.
  intros Hg Hst Ha Hp Ho both.
  destruct (public_route env w request s m Hg Hst Ha Hp) as [Ed Em].
  apply String.eqb_neq in Ho.
  unfold both. rewrite Ed, Em. unfold route_public, tryM. rewrite Ho.
  split; [|split].
  - intros Hpost Hget. apply String.eqb_neq in Hpost, Hget. by rewrite Hpost, Hget.
  - intros Hget. rewrite Hget. simpl.
    by destruct (String.eqb (pathname request) "/" || String.eqb (pathname request) "/health").
  - intros Hpost H1 H2 H3. apply String.eqb_neq in H1, H2, H3.
    rewrite Hpost. simpl. by rewrite H1, H2, H3.
Qed.

Lemma public_routes_witness :
  Durable.fetch Sample.env Sample.world (Sample.get CHAT) (Sample.durable Sample.one_log) =
    (Ok (json_response 404 (error_body "Not found")), Sample.durable Sample.one_log) ∧
  Memory.fetch Sample.env Sample.world (Sample.get CHAT) Sample.memory =
    (Ok (json_response 404 (error_body "Not found")), Sample.memory).
Proof.
  exact (proj1 (proj2 (public_routes Sample.env Sample.world (Sample.get CHAT)
                         (Sample.durable Sample.one_log) Sample.memory
                         eq_refl eq_refl ltac:(discriminate) eq_refl ltac:(discriminate)))
           eq_refl).
Defined.

(** X12. A POST whose body is not JSON. The in-memory admin handlers
    answer 400 "Invalid JSON" and change nothing. In the Durable build the
    object's handler throws, so a request under [/api/storage/config] or
    [/api/storage/logs] is answered by the router's 500 with the message
    of the parse error, and the storage is unchanged. *)
Theorem unparseable_body env w request e rest (s : Durable.Sys) (m : Memory.Sys) :
  method request = "POST" →
  json request = Throw e →
  (Memory.handleConfig w request m = (Ok (json_response 400 (error_body "Invalid JSON")), m) ∧
   Memory.handleLogs w request m = (Ok (json_response 400 (error_body "Invalid JSON")), m)) ∧
  (https_rejected env request = false →
   pathname request = "/api/storage" +:+ rest →
   Str.startsWith rest "/config" = true ∨ Str.startsWith rest "/logs" = true →
   stubFailure w (with_pathname request rest) = None →
   Durable.fetch env w request s =
     (Ok (internal_error e),
      {| store := store s; calls := calls s ++ [StubCall (with_pathname request rest)] |})).
Proof.
  intros Hm Hj. split.
  - split.
    + unfold Memory.handleConfig. rewrite Hm, Hj. reflexivity.
    + unfold Memory.handleLogs. rewrite Hm, Hj. reflexivity.
  - intros Hg Hpath Hrest Hup.
    rewrite storage_route; [|done|rewrite Hpath; apply startsWith_app].
    rewrite Hpath, replace_prefix.
    assert (setPathname rest = rest) as Hset.
    { destruct Hrest as [H|H]; destruct rest as [|c rest']; try done;
        cbn [Str.startsWith] in H; destruct (Ascii.eqb_spec "/" c) as [<-|]; done. }
    assert (Storage.fetch (appendTime w) (appendId w) (with_pathname request rest) (store s) =
            Throw e) as Hrun.
    { unfold Storage.fetch, Storage.handleConfig, Storage.handleLogs.
      cbn [method pathname json with_pathname]. rewrite Hset, Hm, Hj. simpl.
      destruct Hrest as [->| ->]; [done|]. by destruct (Str.startsWith rest "/config"). }
    unfold tryM, Durable.stub_fetch, Durable.object_run. run_m. simpl.
    by rewrite Hup, Hrun.
Qed.

Lemma unparseable_body_witness :
  Memory.handleConfig Sample.world (Case.post "/admin/config" (Throw SyntaxError)) Sample.memory =
    (Ok (json_response 400 (error_body "Invalid JSON")), Sample.memory) ∧
  Durable.fetch Sample.env Sample.world (Case.post "/api/storage/config" (Throw SyntaxError))
    (Sample.durable Sample.configured) =
    (Ok (internal_error SyntaxError),
     {| store := Sample.configured;
        calls := [StubCall (with_pathname
                              (Case.post "/api/storage/config" (Throw SyntaxError))
                              "/config")] |}).
Proof.
  split.
  - exact (proj1 (proj1 (unparseable_body Sample.env Sample.world
                           (Case.post "/admin/config" (Throw SyntaxError)) SyntaxError ""
                           (Sample.durable Sample.configured) Sample.memory eq_refl eq_refl))).
  - exact (proj2 (unparseable_body Sample.env Sample.world
                    (Case.post "/api/storage/config" (Throw SyntaxError)) SyntaxError "/config"
                    (Sample.durable Sample.configured) Sample.memory eq_refl eq_refl)
             eq_refl eq_refl (or_introl eq_refl) eq_refl).
Defined.

(** ** The probe and the forwarding engine *)

Lemma connection_ok_from_200 st : connection_ok st = (200 <=? st)%Z.
Proof.
  unfold connection_ok.
  destruct (Z.eqb_spec st 401) as [->|]; [done|].
  destruct (Z.eqb_spec st 403) as [->|]; [done|].
  by destruct (Z.eqb_spec st 404) as [->|].
Qed.

(** X13. test-connection on a body that names a truthy [targetApiUrl]
    issues exactly one probe and leaves the store alone. An answer with a
    status of 200 or more is reported as "Connection successful" with that
    status (the three codes the test names, 401, 403 and 404, add
    nothing to it); an answer below 200 is reported with 502, and so is a
    probe that throws, with the message of the error. *)
Theorem test_connection_classifies {St} w request data target (s : Sys St) :
  json request = Ok data →
  data !! "targetApiUrl" = Some target →
  truthy target = true →
  let probed := {| store := store s; calls := calls s ++ [ProbeCall target] |} in
  (∀ resp, probe w target = Ok resp → (200 <= status resp)%Z →
     handleTestConnection w request s =
       (Ok (json_response 200
              (JObj (<[ "message" := JStr "Connection successful" ]>
                     (<[ "status" := JNum (status resp) ]> ∅)))), probed)) ∧
  (∀ resp, probe w target = Ok resp → (status resp < 200)%Z →
     handleTestConnection w request s =
       (Ok (json_response 502
              (JObj (<[ "error" := JStr "Connection failed" ]>
                     (<[ "status" := JNum (status resp) ]>
                     (<[ "statusText" := JStr (statusText resp) ]> ∅))))), probed)) ∧
  (∀ e, probe w target = Throw e →
     handleTestConnection w request s = (Ok (connection_failed e), probed)).
Proof.
  intros Hj Hd Ht probed.
  assert (∀ resp, probe w target = Ok resp →
            handleTestConnection w request s =
            ((if connection_ok (status resp) then
                mret (json_response 200
                        (JObj (<[ "message" := JStr "Connection successful" ]>
                               (<[ "status" := JNum (status resp) ]> ∅))))
              else
                mret (json_response 502
                        (JObj (<[ "error" := JStr "Connection failed" ]>
                               (<[ "status" := JNum (status resp) ]>
                               (<[ "statusText" := JStr (statusText resp) ]> ∅))))))
               : M (Sys St) Response) probed) as Hrun.
  { intros resp Hp. unfold handleTestConnection. run_m. rewrite Hj, Hd, Ht. simpl.
    fold probed. rewrite Hp. by destruct (connection_ok (status resp)). }
  split; [|split].
  - intros resp Hp Hst. rewrite (Hrun resp Hp), connection_ok_from_200.
    by apply Z.leb_le in Hst as ->.
  - intros resp Hp Hst. rewrite (Hrun resp Hp), connection_ok_from_200.
    by apply Z.leb_gt in Hst as ->.
  - intros e Hp. unfold handleTestConnection. run_m. rewrite Hj, Hd, Ht. simpl.
    fold probed. by rewrite Hp.
Qed.

Lemma test_connection_classifies_witness :
  handleTestConnection Case.busy Sample.demo_probe Sample.memory =
    (Ok (json_response 200
           (JObj (<[ "message" := JStr "Connection successful" ]>
                  (<[ "status" := JNum 429 ]> ∅)))),
     {| store := Memory.memoryStorage;
        calls := [ProbeCall (JStr "https://llm.example.com")] |}).
Proof.
  exact (proj1 (test_connection_classifies Case.busy Sample.demo_probe
                  {[ "targetApiUrl" := JStr "https://llm.example.com" ]}
                  (JStr "https://llm.example.com") Sample.memory eq_refl eq_refl eq_refl)
           Case.throttled eq_refl ltac:(simpl; lia)).
Defined.

(** X14. test-connection issues no probe when the body does not name a
    truthy [targetApiUrl] (the answer is 400) or is not JSON (the answer
    is the same 502 as for a failed connection, with the message of the
    parse error); the state is as it was. *)
Theorem test_connection_without_target {St} w request (s : Sys St) :
  (∀ data, json request = Ok data → truthy_prop (data !! "targetApiUrl") = false →
     handleTestConnection w request s =
       (Ok (json_response 400 (error_body "Missing targetApiUrl")), s)) ∧
  (∀ e, json request = Throw e →
     handleTestConnection w request s = (Ok (connection_failed e), s)).
Proof.
  split.
  - intros data Hj Ht. unfold handleTestConnection. run_m. rewrite Hj.
    destruct (data !! "targetApiUrl") as [v|]; [|done]. simpl in Ht. by rewrite Ht.
  - intros e Hj. unfold handleTestConnection. run_m. by rewrite Hj.
Qed.

Lemma test_connection_without_target_witness :
  handleTestConnection Sample.world (Case.post "/admin/test-connection" (Ok Case.new_password))
    Sample.memory =
    (Ok (json_response 400 (error_body "Missing targetApiUrl")), Sample.memory).
Proof.
  exact (proj1 (test_connection_without_target Sample.world
                  (Case.post "/admin/test-connection" (Ok Case.new_password)) Sample.memory)
           Case.new_password eq_refl eq_refl).
Defined.

(** X15. The request sent upstream never carries [host],
    [content-length], [x-target-api-url] or [x-target-api-key]; its
    [user-agent] is the proxy's; every inbound header outside these and
    [authorization] is passed on as it came; the URL, the method and the
    body are the target URL and the inbound method and body. *)
Theorem outbound_headers env request targetUrl :
  let out := outbound env request targetUrl in
  o_headers out !! "host" = None ∧
  o_headers out !! "content-length" = None ∧
  o_headers out !! "x-target-api-url" = None ∧
  o_headers out !! "x-target-api-key" = None ∧
  o_headers out !! "user-agent" = Some "LLM-Proxy-API/1.0" ∧
  (∀ k, k ∉ forward_reserved → o_headers out !! k = headers request !! k) ∧
  o_url out = targetUrl ∧ o_method out = method request ∧ o_body out = body request.
Proof.
  intros out. unfold out, outbound, forward_headers. cbn [o_headers o_url o_method o_body].
  repeat split.
  - rewrite lookup_insert_ne by done. rewrite !lookup_delete_ne by done.
    by rewrite lookup_delete_eq.
  - rewrite lookup_insert_ne by done. rewrite !lookup_delete_ne by done.
    by rewrite lookup_delete_eq.
  - rewrite lookup_insert_ne by done. rewrite !lookup_delete_ne by done.
    by rewrite lookup_delete_eq.
  - rewrite lookup_insert_ne by done. by rewrite lookup_delete_eq.
  - by rewrite lookup_insert_eq.
  - intros k Hk. unfold forward_reserved in Hk.
    assert (k ≠ "authorization" ∧ k ≠ "host" ∧ k ≠ "content-length" ∧
            k ≠ "x-target-api-url" ∧ k ≠ "x-target-api-key" ∧ k ≠ "user-agent")
      as (H1 & H2 & H3 & H4 & H5 & H6).
    { repeat split; intros ->; apply Hk; set_solver. }
    rewrite lookup_insert_ne by done. rewrite !lookup_delete_ne by done.
    destruct (or_str (or_str _ _) None); [|done]. by rewrite lookup_insert_ne.
Qed.

Lemma or_str_nonempty k b : k ≠ "" → or_str (Some k) b = Some k.
Proof. intros H. unfold or_str. by destruct (String.eqb_spec k ""). Qed.

Lemma or_str_fallback a b : or_str a None = None → or_str a b = b.
Proof.
  unfold or_str. destruct a as [s|]; [|done]. by destruct (String.eqb s "").
Qed.

(** X16. The credential sent upstream. When the request carries a
    non-empty [x-target-api-key], [authorization] is "Bearer " followed by
    it, whatever the environment holds; otherwise, when
    [env.TARGET_API_KEY] is set and not empty, it is "Bearer " followed by
    that; when neither is there, the inbound [authorization] header, if
    any, is passed on unchanged. *)
Theorem outbound_credential env request targetUrl :
  let auth := o_headers (outbound env request targetUrl) !! "authorization" in
  (∀ k, headers request !! "x-target-api-key" = Some k → k ≠ "" →
        auth = Some ("Bearer " +:+ k)) ∧
  (∀ k, or_str (headers request !! "x-target-api-key") None = None →
        TARGET_API_KEY env = Some k → k ≠ "" →
        auth = Some ("Bearer " +:+ k)) ∧
  (or_str (headers request !! "x-target-api-key") None = None →
   or_str (TARGET_API_KEY env) None = None →
   auth = headers request !! "authorization").
Proof.
  intros auth.
  assert (auth =
          match or_str (or_str (headers request !! "x-target-api-key") (TARGET_API_KEY env))
                  None with
          | Some k => Some ("Bearer " +:+ k)
          | None => headers request !! "authorization"
          end) as ->.
  { unfold auth, outbound, forward_headers. cbn [o_headers].
    rewrite lookup_insert_ne by done. rewrite !lookup_delete_ne by done.
    destruct (or_str (or_str _ _) None); [by rewrite lookup_insert_eq|done]. }
  split; [|split].
  - intros k Hh Hk. by rewrite Hh, !or_str_nonempty.
  - intros k Hh He Hk. by rewrite (or_str_fallback _ _ Hh), He, or_str_nonempty.
  - intros Hh He. by rewrite (or_str_fallback _ _ Hh), He.
Qed.

Lemma outbound_credential_witness :
  let request := Sample.request "POST" CHAT
                   (<[ "x-target-api-key" := "sk-from-header" ]>
                    {[ "authorization" := "Bearer client" ]}) (Throw SyntaxError) in
  let env := {| ENVIRONMENT := None; ADMIN_PASSWORD := None;
                TARGET_API_URL := None; TARGET_API_KEY := Some "sk-from-env" |} in
  o_headers (outbound env request "https://api.openai.com/v1/chat/completions")
    !! "authorization" = Some "Bearer sk-from-header".
Proof.
  intros request env.
  exact (proj1 (outbound_credential env request "https://api.openai.com/v1/chat/completions")
           "sk-from-header" eq_refl ltac:(discriminate)).
Defined.

(** X17. When the upstream server answers with a status in 200..599 (and
    no body on 204, 205 and 304), the answer is relayed whatever the
    status: same status, status text and body, and the upstream headers
    with [access-control-allow-origin] set to "*" and
    [x-content-type-options] to "nosniff". Exactly one upstream call was
    issued and the store is as it was. *)
Theorem upstream_answer_is_relayed {St} env w request targetUrl resp (s : Sys St) :
  let out := outbound env request targetUrl in
  requestError w out = None →
  upstream w out = Ok resp →
  (200 <= status resp <= 599)%Z →
  (status resp = 204%Z ∨ status resp = 205%Z ∨ status resp = 304%Z → rbody resp = BNull) →
  ∃ r,
    forwardRequest env w request targetUrl s =
      (Ok r, {| store := store s; calls := calls s ++ [UpstreamCall out] |}) ∧
    status r = status resp ∧ statusText r = statusText resp ∧ rbody r = rbody resp ∧
    rheaders r !! "access-control-allow-origin" = Some "*" ∧
    rheaders r !! "x-content-type-options" = Some "nosniff" ∧
    (∀ k, k ≠ "access-control-allow-origin" → k ≠ "x-content-type-options" →
          rheaders r !! k = rheaders resp !! k).
Proof.
  intros out Hreq Hup Hrange Hnull.
  assert (new_Response w resp = Ok resp) as Hnew.
  { unfold new_Response.
    destruct (Z.ltb_spec (status resp) 200); [lia|].
    destruct (Z.ltb_spec 599 (status resp)); [lia|]. simpl.
    destruct (Z.eqb_spec (status resp) 204) as [E|_];
      [by rewrite Hnull by auto|].
    destruct (Z.eqb_spec (status resp) 205) as [E|_];
      [by rewrite Hnull by auto|].
    destruct (Z.eqb_spec (status resp) 304) as [E|_];
      [by rewrite Hnull by auto|]. done. }
  exists (relay resp). split.
  - rewrite forwardRequest_run. cbv zeta. fold out. by rewrite Hreq, Hup, Hnew.
  - unfold relay. cbn [status statusText rbody rheaders]. repeat split.
    + rewrite lookup_insert_ne by done. by rewrite lookup_insert_eq.
    + by rewrite lookup_insert_eq.
    + intros k H1 H2. by rewrite !lookup_insert_ne.
Qed.

Lemma upstream_answer_is_relayed_witness :
  ∃ r,
    forwardRequest Sample.env Case.busy (Sample.request "POST" CHAT ∅ (Throw SyntaxError))
      "https://api.openai.com/v1/chat/completions" Sample.memory =
      (Ok r, {| store := Memory.memoryStorage;
                calls := [UpstreamCall
                            (outbound Sample.env
                               (Sample.request "POST" CHAT ∅ (Throw SyntaxError))
                               "https://api.openai.com/v1/chat/completions")] |}) ∧
    status r = 429%Z ∧ rbody r = BText "rate limit reached" ∧
    rheaders r !! "retry-after" = Some "3".
Proof.
  destruct (upstream_answer_is_relayed Sample.env Case.busy
              (Sample.request "POST" CHAT ∅ (Throw SyntaxError))
              "https://api.openai.com/v1/chat/completions" Case.throttled Sample.memory
              eq_refl eq_refl ltac:(simpl; lia)
              ltac:(intros [H|[H|H]]; discriminate H))
    as (r & E & Hs & _ & Hb & _ & _ & Hk).
  exists r. split; [exact E|]. split; [exact Hs|]. split; [exact Hb|].
  rewrite Hk; [reflexivity|discriminate|discriminate].
Defined.

(** ** Admin access in the Durable build *)

(** X18. [verifyAdminAuth] of the Durable build approves a request
    exactly when it has an Authorization header whose text, with the first
    "Bearer " removed, is not empty and is [env.ADMIN_PASSWORD] or
    "admin-token". So "Bearer " followed by the configured password is
    approved, and such a request under [/admin/] is handed to
    [handleAdminApi]. *)
Theorem verifyAdminAuth_approves env w request :
  (Durable.verifyAdminAuth env request = true ↔
   ∃ h, headers request !! "authorization" = Some h ∧
        Str.replace "Bearer " "" h ≠ "" ∧
        (Some (Str.replace "Bearer " "" h) = ADMIN_PASSWORD env ∨
         Str.replace "Bearer " "" h = "admin-token")) ∧
  (∀ pw, pw ≠ "" → ADMIN_PASSWORD env = Some pw →
         headers request !! "authorization" = Some ("Bearer " +:+ pw) →
         Durable.verifyAdminAuth env request = true ∧
         (https_rejected env request = false →
          Str.startsWith (pathname request) "/admin/" = true →
          pathname request ≠ "/admin/" →
          ∀ s, Durable.fetch env w request s =
               tryM (Durable.handleAdminApi w request) (fun e => mret (internal_error e)) s)).
Proof.
  assert (Durable.verifyAdminAuth env request = true ↔
          ∃ h, headers request !! "authorization" = Some h ∧
               Str.replace "Bearer " "" h ≠ "" ∧
               (Some (Str.replace "Bearer " "" h) = ADMIN_PASSWORD env ∨
                Str.replace "Bearer " "" h = "admin-token")) as Hiff.
  { unfold Durable.verifyAdminAuth. split.
    - destruct (headers request !! "authorization") as [h|]; [|done].
      destruct (String.eqb h ""); [done|].
      destruct (String.eqb_spec (Str.replace "Bearer " "" h) "") as [|Hne]; [done|].
      intros H. exists h. split; [done|]. split; [done|].
      apply orb_true_iff in H as [H|H].
      + left. by apply bool_decide_eq_true in H.
      + right. by apply String.eqb_eq in H.
    - intros (h & -> & Hne & Hacc).
      destruct (String.eqb_spec h "") as [->|_]; [done|].
      destruct (String.eqb_spec (Str.replace "Bearer " "" h) "") as [|_]; [done|].
      destruct Hacc as [Hpw|Htok].
      + by rewrite bool_decide_eq_true_2.
      + rewrite Htok. apply orb_true_r. }
  split; [exact Hiff|].
  intros pw Hne Hpw Hh.
  assert (Durable.verifyAdminAuth env request = true) as Hauth.
  { apply Hiff. exists ("Bearer " +:+ pw). rewrite replace_prefix.
    split; [done|]. split; [done|]. by left. }
  split; [exact Hauth|].
  intros Hg Hpre Hadm s. unfold Durable.fetch. rewrite Hg. cbv zeta.
  rewrite (admin_not_storage _ Hpre), (admin_prefix_not_console _ Hpre).
  apply String.eqb_neq in Hadm as ->. simpl orb. cbv iota.
  by rewrite Hpre, Hauth.
Qed.

Lemma verifyAdminAuth_approves_witness :
  let request := Sample.request "GET" "/admin/stats"
                   {[ "authorization" := "Bearer s3cret" ]} (Throw SyntaxError) in
  Durable.verifyAdminAuth Sample.env request = true.
Proof.
  intros request.
  exact (proj1 (proj2 (verifyAdminAuth_approves Sample.env Sample.world request)
                  "s3cret" ltac:(discriminate) eq_refl eq_refl)).
Defined.

Lemma prefixed_path_is_unrouted now id request x st :
  method request ≠ "OPTIONS" →
  Storage.fetch now id (with_pathname request ("/api/storage" +:+ x)) st =
    Ok (text_response 404 "Not found", st).
Proof.
  intros Hm. unfold Storage.fetch. cbn [method with_pathname].
  by apply String.eqb_neq in Hm as ->.
Qed.

Lemma prefixed_path_keeps_storage w request x (s : Durable.Sys) :
  store (Durable.stub_fetch w (with_pathname request ("/api/storage" +:+ x)) s).2 = store s.
Proof.
  unfold Durable.stub_fetch, Durable.object_run. run_m. simpl.
  destruct (stubFailure w _); [done|].
  unfold Storage.fetch. cbn [method with_pathname].
  by destruct (String.eqb (method request) "OPTIONS").
Qed.

Lemma handleTestConnection_store {St} w request (s : Sys St) :
  store (handleTestConnection w request s).2 = store s.
Proof.
  unfold handleTestConnection. run_m.
  destruct (json request) as [data|e]; [|done].
  destruct (data !! "targetApiUrl") as [v|]; [|done].
  destruct (truthy v); [|done]. simpl.
  destruct (probe w v) as [resp|e]; [|done].
  by destruct (connection_ok (status resp)).
Qed.

Lemma durable_handler_store env w name request (s : Durable.Sys) :
  store (handleWith w (Durable.getTargetApiUrl env w) (forwardRequest env w)
           (Durable.logRequest w) name request s).2 = store s.
Proof.
  destruct (forwardRequest_returns env w request (header_or_env env request +:+ name)
              (Durable.getTargetApiUrl env w request s).2) as (r & s2 & Hf & Hst & _).
  unfold handleWith. run_m. rewrite getTargetApiUrl_run in *. simpl in Hf, Hst.
  rewrite Hf, logRequest_run. simpl. rewrite Hst.
  by destruct (or_str (headers request !! "x-target-api-url") None).
Qed.

(** X19. In the Durable build only a request under [/api/storage] can
    change the object's storage: the admin routes, the three endpoint
    handlers with their [logRequest], and every other route leave the
    configuration and the log exactly as they were, because the calls the
    worker itself sends to the object carry the [/api/storage] prefix that
    the object does not route. *)
Theorem durable_storage_changes_only_via_storage_route env w request (s : Durable.Sys) :
  Str.startsWith (pathname request) "/api/storage" = false →
  store (Durable.fetch env w request s).2 = store s.
Proof.
  intros Hst. unfold Durable.fetch, tryM.
  destruct (https_rejected env request); [done|]. cbv zeta. rewrite Hst.
  destruct (String.eqb (pathname request) "/admin" || String.eqb (pathname request) "/admin/");
    [done|].
  destruct (Str.startsWith (pathname request) "/admin/").
  { destruct (Durable.verifyAdminAuth env request); [|done]. simpl.
    unfold Durable.handleAdminApi.
    destruct (_ && _).
    - pose proof (handleTestConnection_store w request s) as H.
      by destruct (handleTestConnection w request s) as [[r|e] s'].
    - pose proof (prefixed_path_keeps_storage w request
                    (Str.replace "/admin" "" (pathname request)) s) as H.
      by destruct (Durable.stub_fetch w _ s) as [[r|e] s']. }
  unfold route_public.
  destruct (String.eqb (method request) "OPTIONS"); [done|].
  destruct (_ && _); [done|].
  destruct (String.eqb (method request) "GET"); [by destruct (_ || _)|].
  destruct (String.eqb (pathname request) CHAT).
  { pose proof (durable_handler_store env w CHAT request s) as H.
    unfold Durable.handleChatCompletion.
    by destruct (handleWith w _ _ _ CHAT request s) as [[r|e] s']. }
  destruct (String.eqb (pathname request) COMPLETIONS).
  { pose proof (durable_handler_store env w COMPLETIONS request s) as H.
    unfold Durable.handleCompletions.
    by destruct (handleWith w _ _ _ COMPLETIONS request s) as [[r|e] s']. }
  destruct (String.eqb (pathname request) EMBEDDINGS).
  { pose proof (durable_handler_store env w EMBEDDINGS request s) as H.
    unfold Durable.handleEmbeddings.
    by destruct (handleWith w _ _ _ EMBEDDINGS request s) as [[r|e] s']. }
  done.
Qed.

Lemma durable_storage_changes_only_via_storage_route_witness :
  store (Durable.fetch Sample.env Sample.world
           (Sample.request "DELETE" "/admin/logs" {[ "authorization" := "Bearer s3cret" ]}
              (Throw SyntaxError))
           (Sample.durable Sample.one_log)).2 = Sample.one_log.
Proof.
  exact (durable_storage_changes_only_via_storage_route Sample.env Sample.world
           (Sample.request "DELETE" "/admin/logs" {[ "authorization" := "Bearer s3cret" ]}
              (Throw SyntaxError))
           (Sample.durable Sample.one_log) eq_refl).
Defined.

(** X20. In the Durable build an approved request under [/admin/], other
    than a POST to test-connection and other than OPTIONS, is answered by
    the object's 404 "Not found" when the object can be reached: the
    worker sends it on under [/api/storage], and the object routes on
    [/config], [/logs] and [/stats]. *)
Theorem durable_admin_routes_unrouted env w request (s : Durable.Sys) :
  https_rejected env request = false →
  Str.startsWith (pathname request) "/admin/" = true →
  pathname request ≠ "/admin/" →
  Durable.verifyAdminAuth env request = true →
  method request ≠ "OPTIONS" →
  ¬ (Str.replace "/admin" "" (pathname request) = "/test-connection" ∧ method request = "POST") →
  let inner := with_pathname request
                 ("/api/storage" +:+ Str.replace "/admin" "" (pathname request)) in
  stubFailure w inner = None →
  Durable.fetch env w request s =
    (Ok (text_response 404 "Not found"),
     {| store := store s; calls := calls s ++ [StubCall inner] |}).
Proof.
  intros Hg Hpre Hadm Hauth Hm Htest inner Hup.
  unfold Durable.fetch. rewrite Hg. cbv zeta.
  rewrite (admin_not_storage _ Hpre), (admin_prefix_not_console _ Hpre).
  apply String.eqb_neq in Hadm as ->. simpl orb. cbv iota.
  rewrite Hpre, Hauth. simpl negb. cbv iota.
  unfold Durable.handleAdminApi.
  assert (String.eqb (Str.replace "/admin" "" (pathname request)) "/test-connection"
          && String.eqb (method request) "POST" = false) as ->.
  { apply andb_false_iff.
    destruct (String.eqb_spec (Str.replace "/admin" "" (pathname request)) "/test-connection");
      [|by left].
    destruct (String.eqb_spec (method request) "POST"); [|by right]. by destruct Htest. }
  unfold tryM. fold inner.
  by rewrite (stub_fetch_run w inner s (text_response 404 "Not found") (store s) Hup
                (prefixed_path_is_unrouted _ _ request _ (store s) Hm)).
Qed.

Lemma durable_admin_routes_unrouted_witness :
  let request := Sample.request "GET" "/admin/config"
                   {[ "authorization" := "Bearer s3cret" ]} (Throw SyntaxError) in
  Durable.fetch Sample.env Sample.world request (Sample.durable Sample.configured) =
    (Ok (text_response 404 "Not found"),
     {| store := Sample.configured;
        calls := [StubCall (with_pathname request "/api/storage/config")] |}).
Proof.
  intros request.
  exact (durable_admin_routes_unrouted Sample.env Sample.world request
           (Sample.durable Sample.configured) eq_refl eq_refl ltac:(discriminate) eq_refl
           ltac:(discriminate) ltac:(intros [H _]; discriminate H) eq_refl).
Defined.

(** ** The in-memory build *)

Lemma readable_merge (old data : jsobj) now :
  field_rejected data "targetApiUrl" = false →
  readable old = true →
  readable (<[ "updatedAt" := JStr now ]> (spread old data)) = true.
Proof.
  unfold readable, config_target, field_rejected, spread. intros Hv Hold.
  rewrite lookup_insert_ne by done.
  destruct (data !! "targetApiUrl") as [v|] eqn:Hd.
  - rewrite (lookup_union_Some_l data old _ v Hd). simpl in Hv.
    destruct v as [|b|n|u|l|o]; simpl in *; try done.
    + by rewrite (andb_false_r) in Hv || destruct b.
    + by destruct (n =? 0)%Z.
    + by destruct (String.eqb u "").
  - by rewrite (lookup_union_r data old _ Hd).
Qed.

Lemma memory_handleConfig_effect w request (s : Memory.Sys) :
  let s' := (Memory.handleConfig w request s).2 in
  Memory.logs (store s') = Memory.logs (store s) ∧
  Memory.stats (store s') = Memory.stats (store s) ∧
  (readable (Memory.config (store s)) = true → readable (Memory.config (store s')) = true) ∧
  (method request ≠ "POST" → store s' = store s).
Proof.
  unfold Memory.handleConfig.
  destruct (String.eqb_spec (method request) "GET") as [_|_]; [by repeat split|].
  destruct (String.eqb_spec (method request) "POST") as [Hp|Hn]; [|by repeat split].
  run_m. destruct (json request) as [data|e]; [|by repeat split].
  destruct (truthy_prop (data !! "targetApiUrl")
            && negb (from_option is_string false (data !! "targetApiUrl"))) eqn:H1;
    [by repeat split|].
  destruct (truthy_prop (data !! "adminPassword")
            && negb (from_option is_string false (data !! "adminPassword")));
    [by repeat split|].
  simpl. repeat split; [|done]. intros Hr. by apply readable_merge.
Qed.

Lemma memory_handleLogs_effect w request (s : Memory.Sys) :
  let s' := (Memory.handleLogs w request s).2 in
  Memory.config (store s') = Memory.config (store s) ∧
  Memory.stats (store s') = Memory.stats (store s) ∧
  (method request ≠ "POST" → method request ≠ "DELETE" → store s' = store s).
Proof.
  unfold Memory.handleLogs.
  destruct (String.eqb_spec (method request) "GET") as [_|_]; [by repeat split|].
  destruct (String.eqb_spec (method request) "POST") as [Hp|Hn].
  { run_m. destruct (json request) as [data|e]; [|by repeat split].
    destruct (_ || _); by repeat split. }
  destruct (String.eqb_spec (method request) "DELETE") as [Hd|Hd]; by repeat split.
Qed.

Lemma memory_handler_config env w name request (s : Memory.Sys) :
  Memory.config
    (store (handleWith w (Memory.getTargetApiUrl env) (forwardRequest env w)
              (Memory.logRequest w) name request s).2) = Memory.config (store s).
Proof.
  destruct (readable (Memory.config (store s))) eqn:Hr.
  - destruct (memory_handler_run env w name request s Hr) as (r & s2 & _ & Hst & ->).
    simpl. by rewrite Hst.
  - unfold readable in Hr.
    destruct (config_target (Memory.config (store s))) as [|e] eqn:E; [done|].
    destruct (or_str (headers request !! "x-target-api-url") None) as [h|] eqn:Hh.
    + assert (Memory.getTargetApiUrl env request s = (Ok (Str.stripTrailingSlash h), s)) as Ht.
      { unfold Memory.getTargetApiUrl. by rewrite Hh. }
      destruct (forwardRequest_returns env w request (Str.stripTrailingSlash h +:+ name) s)
        as (r & s2 & Hf & Hst & _).
      unfold handleWith. run_m. rewrite Ht, Hf. simpl. by rewrite Hst.
    + assert (Memory.getTargetApiUrl env request s = (Throw e, s)) as Ht.
      { unfold Memory.getTargetApiUrl. rewrite Hh. run_m. by rewrite E. }
      unfold handleWith. run_m. by rewrite !Ht.
Qed.

(** X21. Every request leaves the stored configuration of the in-memory
    build readable by the resolver (its [targetApiUrl] falsy or a string),
    so from the initial [memoryStorage] on the resolver never throws; and a
    request whose method is neither POST nor DELETE leaves the whole
    store, configuration, log and counters, as it was. *)
Theorem memory_store_effects env w request (s : Memory.Sys) :
  let s' := (Memory.fetch env w request s).2 in
  readable (Memory.config Memory.memoryStorage) = true ∧
  (readable (Memory.config (store s)) = true → readable (Memory.config (store s')) = true) ∧
  (method request ≠ "POST" → method request ≠ "DELETE" → store s' = store s).
Proof.
  split; [done|].
  unfold Memory.fetch, tryM.
  destruct (https_rejected env request); [done|]. cbv zeta.
  destruct (String.eqb (pathname request) "/admin" || String.eqb (pathname request) "/admin/");
    [done|].
  destruct (Str.startsWith (pathname request) "/admin/").
  { simpl. unfold Memory.handleAdminApi.
    destruct (String.eqb_spec (method request) "POST") as [Hp|Hp].
    - rewrite andb_true_r.
      destruct (String.eqb (Str.replace "/admin" "" (pathname request)) "/test-connection").
      { pose proof (handleTestConnection_store w request s) as H.
        destruct (handleTestConnection w request s) as [[r|e] s']; cbv [mret M_ret] in *; simpl in *;
          rewrite H; by split. }
      destruct (String.eqb (Str.replace "/admin" "" (pathname request)) "/config").
      { destruct (memory_handleConfig_effect w request s) as (_ & _ & H & _).
        destruct (Memory.handleConfig w request s) as [[r|e] s'];
          cbv [mret M_ret] in *; simpl in *; by split. }
      destruct (Str.startsWith (Str.replace "/admin" "" (pathname request)) "/logs").
      { destruct (memory_handleLogs_effect w request s) as (H & _ & _).
        destruct (Memory.handleLogs w request s) as [[r|e] s']; cbv [mret M_ret] in *; simpl in *;
          rewrite H; by split. }
      unfold Memory.handleStats. rewrite Hp.
      by destruct (String.eqb (Str.replace "/admin" "" (pathname request)) "/stats").
    - rewrite andb_false_r.
      destruct (String.eqb (Str.replace "/admin" "" (pathname request)) "/config").
      { destruct (memory_handleConfig_effect w request s) as (_ & _ & H & H').
        specialize (H' Hp).
        destruct (Memory.handleConfig w request s) as [[r|e] s'];
          cbv [mret M_ret] in *; simpl in *; by split. }
      destruct (Str.startsWith (Str.replace "/admin" "" (pathname request)) "/logs").
      { destruct (memory_handleLogs_effect w request s) as (H & _ & H').
        specialize (H' Hp).
        destruct (Memory.handleLogs w request s) as [[r|e] s']; cbv [mret M_ret] in *; simpl in *;
          rewrite H; by split. }
      unfold Memory.handleStats.
      destruct (String.eqb (Str.replace "/admin" "" (pathname request)) "/stats");
        [by destruct (String.eqb (method request) "GET")|done]. }
  unfold route_public.
  destruct (String.eqb (method request) "OPTIONS"); [done|].
  destruct (String.eqb_spec (method request) "POST") as [Hp|Hp].
  2:{ simpl. destruct (negb (String.eqb (method request) "GET")) eqn:Hg; [done|].
      apply negb_false_iff in Hg. rewrite Hg. by destruct (_ || _). }
  simpl. rewrite Hp. simpl.
  destruct (String.eqb (pathname request) CHAT).
  { pose proof (memory_handler_config env w CHAT request s) as H.
    unfold Memory.handleChatCompletion.
    destruct (handleWith w _ _ _ CHAT request s) as [[r|e] s']; cbv [mret M_ret] in *; simpl in *;
      rewrite H; by split. }
  destruct (String.eqb (pathname request) COMPLETIONS).
  { pose proof (memory_handler_config env w COMPLETIONS request s) as H.
    unfold Memory.handleCompletions.
    destruct (handleWith w _ _ _ COMPLETIONS request s) as [[r|e] s']; cbv [mret M_ret] in *; simpl in *;
      rewrite H; by split. }
  destruct (String.eqb (pathname request) EMBEDDINGS).
  { pose proof (memory_handler_config env w EMBEDDINGS request s) as H.
    unfold Memory.handleEmbeddings.
    destruct (handleWith w _ _ _ EMBEDDINGS request s) as [[r|e] s']; cbv [mret M_ret] in *; simpl in *;
      rewrite H; by split. }
  done.
Qed.

Lemma memory_store_effects_witness :
  store (Memory.fetch Sample.env Sample.world (Sample.get "/admin/logs") Sample.memory).2 =
  store Sample.memory.
Proof.
  exact (proj2 (proj2 (memory_store_effects Sample.env Sample.world (Sample.get "/admin/logs")
                         Sample.memory))
           ltac:(discriminate) ltac:(discriminate)).
Defined.

(** X22. The resolver of the in-memory build, on a readable
    configuration, returns its choice with one trailing slash removed and
    changes nothing: the choice is the [x-target-api-url] header when it
    carries a value, whatever is stored or configured; else the stored
    [targetApiUrl] when it is a non-empty string; else
    [env.TARGET_API_URL] when it is not empty; else
    [https://api.openai.com]. A choice that does not end in a slash is
    returned as it is, and one that does loses exactly its last
    character. *)
Theorem memory_resolver_precedence env request (s : Memory.Sys) :
  readable (Memory.config (store s)) = true →
  let choice := resolver_choice env request (Memory.config (store s)) in
  Memory.getTargetApiUrl env request s = (Ok (Str.stripTrailingSlash choice), s) ∧
  (if Str.endsWith_slash choice then choice = Str.stripTrailingSlash choice +:+ "/"
   else Str.stripTrailingSlash choice = choice) ∧
  (∀ h, headers request !! "x-target-api-url" = Some h → h ≠ "" → choice = h) ∧
  (∀ u, or_str (headers request !! "x-target-api-url") None = None →
        Memory.config (store s) !! "targetApiUrl" = Some (JStr u) → u ≠ "" → choice = u) ∧
  (or_str (headers request !! "x-target-api-url") None = None →
   truthy_prop (Memory.config (store s) !! "targetApiUrl") = false →
   choice = default "https://api.openai.com" (or_str (TARGET_API_URL env) None)).
Proof.
  intros Hr choice. split; [|split; [|split; [|split]]].
  - unfold readable in Hr.
    destruct (config_target (Memory.config (store s))) as [stored|] eqn:E; [|done].
    rewrite (memory_getTargetApiUrl_run env request s stored E).
    unfold choice, resolver_choice, env_target. do 2 f_equal.
    destruct (or_str (headers request !! "x-target-api-url") None); [done|].
    unfold config_target in E.
    destruct (Memory.config (store s) !! "targetApiUrl") as [[| | |u| |]|];
      simplify_eq/=; try done.
    + by destruct b; simplify_eq/=.
    + by destruct (n =? 0)%Z; simplify_eq/=.
    + by destruct (String.eqb u ""); simplify_eq/=.
  - apply stripTrailingSlash_spec.
  - intros h Hh Hne. unfold choice, resolver_choice. by rewrite Hh, or_str_nonempty.
  - intros u Hh Hu Hne. unfold choice, resolver_choice. rewrite Hh, Hu.
    by destruct (String.eqb_spec u "").
  - intros Hh Hf. unfold choice, resolver_choice. rewrite Hh.
    destruct (Memory.config (store s) !! "targetApiUrl") as [[| | |u| |]|]; try done.
    simpl in Hf. apply negb_false_iff in Hf. by rewrite Hf.
Qed.

Lemma memory_resolver_precedence_witness :
  let s : Memory.Sys :=
    {| store := {| Memory.config := {[ "targetApiUrl" := JStr "https://llm.example.com/" ]};
                   Memory.logs := [];
                   Memory.stats := Memory.stats Memory.memoryStorage |};
       calls := [] |} in
  Memory.getTargetApiUrl Sample.env (Sample.get CHAT) s = (Ok "https://llm.example.com", s).
Proof.
  intros s.
  exact (proj1 (memory_resolver_precedence Sample.env (Sample.get CHAT) s eq_refl)).
Defined.

(** X23. In the in-memory build a POST to one of the three endpoints that
    passes the gate, on a readable configuration, is answered with the
    response of [forwardRequest] for the resolved target followed by the
    endpoint path; the log receives exactly one new entry, built from the
    endpoint, the target, the status of that response and the elapsed
    time, the total counter grows by one, and the configuration is
    unchanged. *)
Theorem memory_endpoint_logs_once env w name request (s : Memory.Sys) :
  https_rejected env request = false →
  method request = "POST" →
  name ∈ [CHAT; COMPLETIONS; EMBEDDINGS] →
  pathname request = name →
  readable (Memory.config (store s)) = true →
  let target := Str.stripTrailingSlash (resolver_choice env request (Memory.config (store s))) in
  ∃ r s2 s',
    forwardRequest env w request (target +:+ name) s = (Ok r, s2) ∧
    Memory.fetch env w request s = (Ok r, s') ∧
    calls s' = calls s2 ∧
    Memory.logs (store s') =
      pushLog (Storage.newLog (appendTime w) (appendId w)
                 (LogData_obj {| endpoint := name;
                                 targetApi := target;
                                 log_status := status r;
                                 duration := (endTime w - startTime w)%Z;
                                 timestamp := isoTime w;
                                 error := None |}))
              (Memory.logs (store s)) ∧
    Memory.c_totalRequests (Memory.stats (store s')) =
      (Memory.c_totalRequests (Memory.stats (store s)) + 1)%Z ∧
    Memory.config (store s') = Memory.config (store s).
Proof.
  intros Hg Hm Hname Hpath Hr target.
  destruct (memory_handler_run env w name request s Hr) as (r & s2 & Hf & Hst & Hrun).
  fold target in Hf, Hrun.
  assert (Memory.fetch env w request s =
          tryM (handleWith w (Memory.getTargetApiUrl env) (forwardRequest env w)
                  (Memory.logRequest w) name request)
               (fun e => mret (internal_error e)) s) as Hfetch.
  { unfold Memory.fetch. rewrite Hg. cbv zeta. rewrite Hpath.
    unfold route_public. rewrite Hm, Hpath.
    apply elem_of_cons in Hname as [->|Hname]; [done|].
    apply elem_of_cons in Hname as [->|Hname]; [done|].
    apply elem_of_cons in Hname as [->|Hname]; [done|].
    by apply elem_of_nil in Hname. }
  eexists r, s2, _. split; [exact Hf|]. split.
  { rewrite Hfetch. unfold tryM. rewrite Hrun. reflexivity. }
  simpl. by rewrite Hst.
Qed.

Lemma memory_endpoint_logs_once_witness :
  ∃ r s',
    Memory.fetch Sample.env Case.busy (Sample.request "POST" EMBEDDINGS ∅ (Throw SyntaxError))
      Sample.memory = (Ok r, s') ∧
    status r = 429%Z ∧
    length (Memory.logs (store s')) = 1 ∧
    Memory.c_totalRequests (Memory.stats (store s')) = 1%Z.
Proof.
  destruct (memory_endpoint_logs_once Sample.env Case.busy EMBEDDINGS
              (Sample.request "POST" EMBEDDINGS ∅ (Throw SyntaxError)) Sample.memory
              eq_refl eq_refl
              ltac:(apply (bool_decide_unpack _); vm_compute; exact I) eq_refl eq_refl)
    as (r & s2 & s' & Hf & Hfetch & _ & Hlogs & Hc & _).
  exists r, s'. split; [exact Hfetch|].
  assert (status r = 429%Z) as Hs.
  { vm_compute in Hf. injection Hf as <- _. reflexivity. }
  split; [exact Hs|]. split.
  - rewrite Hlogs. reflexivity.
  - rewrite Hc. reflexivity.
Defined.

(** X24. The limit [handleLogs] passes to [getLogs] is never 0. A
    positive limit of at least the number of stored entries returns the
    whole log; a negative limit [-k], which the parse lets through,
    returns the log without its first [k] entries. *)
Theorem getLogs_limit_edges request st :
  Storage.limit_of request ≠ 0%Z ∧
  (∀ limit, (0 < limit)%Z → (Z.of_nat (length (Storage.stored_logs st)) <= limit)%Z →
     Storage.getLogs limit st = json_response 200 (JArr (JObj <$> Storage.stored_logs st))) ∧
  (∀ k, (0 < k)%Z →
     Storage.getLogs (- k) st =
       json_response 200 (JArr (JObj <$> drop (Z.to_nat k) (Storage.stored_logs st)))).
Proof.
  split; [|split].
  - rewrite limit_of_cases.
    destruct (searchParams_get "limit" (searchParams request)) as [v|]; [|done].
    destruct (Str.parseInt v) as [n|]; [|done].
    by destruct (Z.eqb_spec n 0).
  - intros limit Hpos Hlen. unfold Storage.getLogs. rewrite slice_neg by done.
    by rewrite lastn_all by lia.
  - intros k Hk. unfold Storage.getLogs, slice. rewrite Z.opp_involutive.
    destruct (Z.ltb_spec k 0); [lia|].
    destruct (decide (k ≤ Z.of_nat (length (Storage.stored_logs st))))%Z.
    + by rewrite Z.min_l by lia.
    + rewrite Z.min_r by lia. rewrite Nat2Z.id.
      by rewrite !drop_ge by lia.
Qed.

Lemma getLogs_limit_edges_witness :
  Storage.getLogs (-1) (Storage.appendAll (Sample.burst 3) Storage.empty) =
  json_response 200
    (JArr (JObj <$> drop 1 (Storage.stored_logs (Storage.appendAll (Sample.burst 3) Storage.empty)))).
Proof.
  exact (proj2 (proj2 (getLogs_limit_edges (Sample.with_limit "-1")
                         (Storage.appendAll (Sample.burst 3) Storage.empty)))
           1%Z ltac:(lia)).
Defined.

Lemma outbound_headers_witness :
  let request := Sample.request "POST" CHAT
                   (<[ "host" := "proxy.example.workers.dev" ]>
                    {[ "content-type" := "application/json" ]}) (Throw SyntaxError) in
  o_headers (outbound Sample.env request "https://api.openai.com/v1/chat/completions")
    !! "content-type" = Some "application/json".
Proof.
  intros request.
  destruct (outbound_headers Sample.env request "https://api.openai.com/v1/chat/completions")
    as (_ & _ & _ & _ & _ & Hpass & _).
  rewrite Hpass; [reflexivity|]. apply (bool_decide_unpack _). vm_compute. exact I.
Defined.

(** X25. One step of the two stores, from a configuration and a log that
    agree, on a request whose body, if it is a POST, is a JSON object:
    the Durable Object's [handleConfig] and the in-memory [handleConfig]
    give the same response, and so do the two [handleLogs], when the two
    sides read the same clock and id; afterwards configuration and log
    agree again. *)
Theorem stores_step_together w request st (s : Memory.Sys) :
  Storage.stored_config st = Memory.config (store s) →
  Storage.stored_logs st = Memory.logs (store s) →
  (method request = "POST" → ∃ data, json request = Ok data) →
  (∃ resp st' s',
     Storage.handleConfig (isoTime w) request st = Ok (resp, st') ∧
     Memory.handleConfig w request s = (Ok resp, s') ∧
     Storage.stored_config st' = Memory.config (store s') ∧
     Storage.stored_logs st' = Memory.logs (store s')) ∧
  (∃ resp st' s',
     Storage.handleLogs (appendTime w) (appendId w) request st = Ok (resp, st') ∧
     Memory.handleLogs w request s = (Ok resp, s') ∧
     Storage.stored_config st' = Memory.config (store s') ∧
     Storage.stored_logs st' = Memory.logs (store s')).
Proof.
  intros Hc Hl Hj. split.
  - apply (stores_agree_on_config_and_logs w request st s Hc Hl Hj
             (Storage.handleConfig (isoTime w)) (Memory.handleConfig w)). by left.
  - apply (stores_agree_on_config_and_logs w request st s Hc Hl Hj
             (Storage.handleLogs (appendTime w) (appendId w)) (Memory.handleLogs w)). by right.
Qed.

Lemma stores_step_together_witness :
  ∃ resp st' s',
    Storage.handleLogs (appendTime Sample.world) (appendId Sample.world)
      (Case.post "/logs" (Ok Case.submitted)) Storage.empty = Ok (resp, st') ∧
    Memory.handleLogs Sample.world (Case.post "/logs" (Ok Case.submitted)) Sample.memory =
      (Ok resp, s') ∧
    Storage.stored_config st' = Memory.config (store s') ∧
    Storage.stored_logs st' = Memory.logs (store s').
Proof.
  exact (proj2 (stores_step_together Sample.world (Case.post "/logs" (Ok Case.submitted))
                  Storage.empty Sample.memory eq_refl eq_refl
                  (λ _, ex_intro _ Case.submitted eq_refl))).
Defined.
